(** * ovn_octavia_provider.ovsdb.impl_idl_ovn: a shallow embedding

    The Python module [impl_idl_ovn.py] is embedded function by function.
    Python exceptions become values of [exn] carried by a [result]; code
    that mutates the mirror, the pending OVSDB transaction or the log is
    written in the state-and-exception monad [M].  Libraries the module
    calls but does not define (ovs, ovsdbapp, netaddr, tenacity) appear
    either as section variables or as small reference models, each marked
    as such. *)

From Stdlib Require Import ZArith Lia Ascii.
From stdpp Require Import base strings gmap list.

Local Open Scope Z_scope.

(** ** Python exceptions *)

Module Py.

(** The exception classes the module raises, catches or lets through.
    [KeyboardInterrupt] stands for the classes outside [Exception]. *)
Inductive exn_class :=
| BaseException | KeyboardInterrupt | Exception
| KeyError | AttributeError | TypeError | StopIteration | AssertionError
| RuntimeError
| RowNotFound                  (* ovsdbapp idlutils.RowNotFound *)
| AddrFormatError              (* netaddr.core.AddrFormatError *)
| RevisionConflict             (* ovn_exc.RevisionConflict *)
| OvsdbConnectionUnavailable.  (* declared in this module *)

#[global] Instance exn_class_eq_dec : EqDecision exn_class.
Proof. solve_decision. Defined.

(** Proper superclasses, nearest first (intermediate library classes such
    as LookupError, OvsdbAppException and NeutronException are skipped). *)
Definition bases (c : exn_class) : list exn_class :=
  match c with
  | BaseException => []
  | KeyboardInterrupt => [BaseException]
  | Exception => [BaseException]
  | RowNotFound => [RuntimeError; Exception; BaseException]
  | _ => [Exception; BaseException]
  end.

Definition issubclass (c d : exn_class) : bool :=
  bool_decide (c = d) || bool_decide (d ∈ bases c).

Record exn := Exn { exn_cls : exn_class; exn_msg : string }.

Definition isinstance (e : exn) (c : exn_class) : bool :=
  issubclass (exn_cls e) c.

Inductive result (A : Type) :=
| Ok (a : A)
| Raise (e : exn).
Arguments Ok {A} a.
Arguments Raise {A} e.

#[global] Instance result_ret : MRet result := @Ok.
#[global] Instance result_bind : MBind result := λ A B f r,
  match r with Ok a => f a | Raise e => Raise e end.

(** State and exceptions: a raise keeps the state reached so far. *)
Definition M (S A : Type) : Type := S → result A * S.

Definition ret {S A} (a : A) : M S A := λ s, (Ok a, s).
Definition bind {S A B} (m : M S A) (k : A → M S B) : M S B := λ s,
  match m s with
  | (Ok a, s') => k a s'
  | (Raise e, s') => (Raise e, s')
  end.
Definition raise {S A} (e : exn) : M S A := λ s, (Raise e, s).
Definition lift {S A} (r : result A) : M S A := λ s, (r, s).

(** [try: body / except cls as e: handler e]. *)
Definition try_except {S A} (body : M S A) (cls : exn_class)
    (handler : exn → M S A) : M S A := λ s,
  match body s with
  | (Raise e, s') => if isinstance e cls then handler e s' else (Raise e, s')
  | ok => ok
  end.

(** [d[k]] on a dict. *)
Definition getitem {V} (d : gmap string V) (k : string) : result V :=
  match d !! k with
  | Some v => Ok v
  | None => Raise (Exn KeyError k)
  end.

(** [next(iter(xs))]. *)
Definition next_iter {A} (xs : list A) : result A :=
  match xs with
  | x :: _ => Ok x
  | [] => Raise (Exn StopIteration "")
  end.

End Py.
Export Py.

Notation "x ←← m ; k" := (bind m (λ x, k))
  (at level 20, m at level 100, k at level 200, only parsing, right associativity).
Notation "m ;;; k" := (bind m (λ _, k))
  (at level 100, k at level 200, only parsing, right associativity).

(** ** The mirrored tables (ovs.db.idl), as far as the module reads them *)

Inductive Value :=
| VInt (n : Z)
| VStr (s : string)
| VRefs (uuids : list string)          (* a set of row references *)
| VMap (m : gmap string string).

Record Row := mkRow { uuid : string; row_data : gmap string Value }.

(** [rows] is the insertion-ordered [rows.values()] of the table. *)
Record Table := mkTable { columns : gset string; rows : list Row }.

Abbreviation Tables := (gmap string Table).

(** [row.<column>]: ovs raises AttributeError for a column the row lacks. *)
Definition getattr (r : Row) (column : string) : result Value :=
  match row_data r !! column with
  | Some v => Ok v
  | None => Raise (Exn AttributeError column)
  end.

(** [x in v] for a string [x]. *)
Definition py_in (x : string) (v : Value) : result bool :=
  match v with
  | VRefs l => Ok (bool_decide (x ∈ l))
  | VMap m => Ok (bool_decide (is_Some (m !! x)))
  | VStr s => Ok (bool_decide (is_Some (String.index 0 x s)))
  | VInt _ => Raise (Exn TypeError "argument of type 'int' is not iterable")
  end.

(** ** class Backend *)

Definition is_table_present (_tables : Tables) (table_name : string) : bool :=
  bool_decide (is_Some (_tables !! table_name)).

(** [a and b] evaluates [b] only when [a] is true. *)
Definition is_col_present (_tables : Tables) (table_name col_name : string)
    : result bool :=
  if is_table_present _tables table_name then
    t ← getitem _tables table_name;
    Ok (bool_decide (col_name ∈ columns t))
  else Ok false.

(** ** FindLbInTableCommand, GetLrsCommand *)

Record RowView := mkRowView { _row : Row }.

(** [[RowView(item) for item in items if lb in item.load_balancer]] *)
Fixpoint find_lb_comprehension (lb : string) (items : list Row)
    : result (list RowView) :=
  match items with
  | [] => Ok []
  | item :: rest =>
      v ← getattr item "load_balancer";
      b ← py_in lb v;
      views ← find_lb_comprehension lb rest;
      Ok (if b : bool then mkRowView item :: views else views)
  end.

Definition FindLbInTableCommand_run_idl (api_tables : Tables)
    (lb table : string) : result (list RowView) :=
  t ← getitem api_tables table;
  find_lb_comprehension lb (rows t).

Definition GetLrsCommand_run_idl (api_tables : Tables)
    : result (list RowView) :=
  t ← getitem api_tables "Logical_Router";
  Ok (mkRowView <$> rows t).

(** ** OvsdbNbOvnIdl.nb_global *)

Definition nb_global (api_tables : Tables) : result Row :=
  t ← getitem api_tables "NB_Global";
  next_iter (rows t).

(** ** The state the commands act on *)

Inductive log_level := LOG_DEBUG | LOG_INFO | LOG_ERROR.

Record log_record := mkLog { level : log_level; message : string }.

(** A mutation queued on the pending ovs.db.idl transaction. *)
Inductive mutation :=
| MutSetKey (table row_uuid column key value : string)
| MutDelKey (table row_uuid column key : string)
| MutIncrement (table row_uuid column : string).

Definition is_increment (mu : mutation) : bool :=
  match mu with MutIncrement _ _ _ => true | _ => false end.

Record World := mkWorld {
  idl_tables : Tables;        (* the mirror, [api.tables] *)
  txn : list mutation;        (* the pending transaction, oldest first *)
  LOG : list log_record       (* records written so far, oldest first *)
}.

Definition log_to (l : log_level) (msg : string) : M World unit := λ w,
  (Ok (), mkWorld (idl_tables w) (txn w) (LOG w ++ [mkLog l msg])).

(** [LOG.exception] writes at error level (with the traceback). *)
Definition LOG_exception := log_to LOG_ERROR.
Definition LOG_info := log_to LOG_INFO.

Definition queue (mu : mutation) : M World unit := λ w,
  (Ok (), mkWorld (idl_tables w) (txn w ++ [mu]) (LOG w)).

(** A live row handed out by the mirror knows its table. *)
Record RowRef := mkRef { ref_table : string; ref_row : Row }.

#[global] Instance Value_eq_dec : EqDecision Value.
Proof. solve_decision. Defined.

(** What the mapping commands ask of [self.api] and of the row it hands
    out: [api.lookup], [row.setkey], [row.delkey]. *)
Class MirrorApi := {
  api_lookup : string → string → M World RowRef;
  Row_setkey : RowRef → string → string → string → M World unit;
  Row_delkey : RowRef → string → string → M World unit
}.

(** *** Reference model of the library calls on rows

    [api.lookup(table, record)] of ovsdbapp: by UUID, else by the [name]
    column; RowNotFound otherwise. *)
Definition find_row (record : string) (rs : list Row) : option Row :=
  match List.find (λ r, bool_decide (uuid r = record)) rs with
  | Some r => Some r
  | None =>
      List.find (λ r, bool_decide (row_data r !! "name" = Some (VStr record))) rs
  end.

Definition lookup_in (ts : Tables) (table record : string) : result RowRef :=
  t ← getitem ts table;
  match find_row record (rows t) with
  | Some r => Ok (mkRef table r)
  | None => Raise (Exn RowNotFound ("Cannot find " +:+ table +:+ " with name=" +:+ record))
  end.

Definition idl_lookup (table record : string) : M World RowRef := λ w,
  (lookup_in (idl_tables w) table record, w).

(** [Row.setkey]: the column must be in the schema; a datum the column
    type rejects is reported by ovs itself and nothing is queued. *)
Definition idl_setkey (r : RowRef) (column_name key value : string)
    : M World unit :=
  match row_data (ref_row r) !! column_name with
  | None => raise (Exn KeyError column_name)
  | Some (VMap _) =>
      queue (MutSetKey (ref_table r) (uuid (ref_row r)) column_name key value)
  | Some _ => ret ()
  end.

(** [Row.delkey] queues the removal without looking at the row. *)
Definition idl_delkey (r : RowRef) (column_name key : string) : M World unit :=
  queue (MutDelKey (ref_table r) (uuid (ref_row r)) column_name key).

#[global] Instance idl_api : MirrorApi := {|
  api_lookup := idl_lookup;
  Row_setkey := idl_setkey;
  Row_delkey := idl_delkey
|}.

(** [Row.increment]: one increment per transaction (ovs asserts it). *)
Definition Row_increment (r : RowRef) (column_name : string) : M World unit :=
  λ w,
  if existsb is_increment (txn w)
  then (Raise (Exn AssertionError ""), w)
  else queue (MutIncrement (ref_table r) (uuid (ref_row r)) column_name) w.

(** What the server does with one mutation once the transaction commits. *)
Definition mutate_value (mu : mutation) (v : Value) : Value :=
  match mu, v with
  | MutSetKey _ _ _ k x, VMap m => VMap (<[k := x]> m)
  | MutDelKey _ _ _ k, VMap m => VMap (delete k m)
  | MutIncrement _ _ _, VInt n => VInt (n + 1)
  | _, _ => v
  end.

Definition mutation_target (mu : mutation) : string * string * string :=
  match mu with
  | MutSetKey t u c _ _ | MutDelKey t u c _ | MutIncrement t u c => (t, u, c)
  end.

Definition mutate_row (mu : mutation) (r : Row) : Row :=
  let '(_, u, c) := mutation_target mu in
  if bool_decide (uuid r = u)
  then mkRow (uuid r) (alter (mutate_value mu) c (row_data r))
  else r.

Definition apply_mutation (ts : Tables) (mu : mutation) : Tables :=
  let '(t, _, _) := mutation_target mu in
  alter (λ tb, mkTable (columns tb) (mutate_row mu <$> rows tb)) t ts.

Definition apply_mutations (mus : list mutation) (ts : Tables) : Tables :=
  foldl apply_mutation ts mus.

(** What [Transaction.commit] of ovs makes of the queue.  Per row and
    column it keeps the keys to remove ([setkey] removes its key too) and
    the pairs to insert, and sends the removals before the insertions,
    whatever the order of the calls.  The increment is appended only when
    the transaction carries an update; a transaction without any update
    sends nothing at all. *)
Definition any_updates (mus : list mutation) : bool :=
  existsb (λ mu, negb (is_increment mu)) mus.

Definition removal_of (mu : mutation) : option mutation :=
  match mu with
  | MutSetKey t u c k _ | MutDelKey t u c k => Some (MutDelKey t u c k)
  | MutIncrement _ _ _ => None
  end.

Definition insertion_of (mu : mutation) : option mutation :=
  match mu with
  | MutSetKey _ _ _ _ _ => Some mu
  | _ => None
  end.

Definition sent_mutations (mus : list mutation) : list mutation :=
  if any_updates mus
  then omap removal_of mus ++ omap insertion_of mus
       ++ List.filter is_increment mus
  else [].

(** A successful commit: what was sent reaches the mirror. *)
Definition committed (w : World) : World :=
  mkWorld (apply_mutations (sent_mutations (txn w)) (idl_tables w)) [] (LOG w).

(** An aborted commit: the queue is dropped, the mirror is untouched. *)
Definition aborted (w : World) : World :=
  mkWorld (idl_tables w) [] (LOG w).

(** Reading [row.<column>] of the row [api.lookup] finds. *)
Definition read_column (ts : Tables) (table record column : string)
    : result Value :=
  r ← lookup_in ts table record;
  getattr (ref_row r) column.

(** ** DelBackendFromIPPortMapping, AddBackendToIPPortMapping *)

Definition IP_VERSION_6 : Z := 6.   (* neutron_lib.constants *)

Record DelBackendFromIPPortMapping := mkDel {
  del_lb : string;
  del_backend_ip : string
}.

Record AddBackendToIPPortMapping := mkAdd {
  add_lb : string;
  add_backend_ip : string;
  add_port_name : string;
  add_src_ip : string
}.

Definition bracket (ip : string) : string := "[" +:+ ip +:+ "]".

Section Commands.

(** [netaddr.IPNetwork(s).version]: 4 or 6, or the parse error raised. *)
Variable IPNetwork_version : string → result Z.
Context {api : MirrorApi}.

Definition DelBackendFromIPPortMapping_init (lb backend_ip : string)
    : M World DelBackendFromIPPortMapping :=
  v ←← lift (IPNetwork_version backend_ip);
  if bool_decide (v = IP_VERSION_6)
  then ret (mkDel lb (bracket backend_ip))
  else ret (mkDel lb backend_ip).

Definition DelBackendFromIPPortMapping_run_idl
    (self : DelBackendFromIPPortMapping) : M World unit :=
  try_except
    (ovn_lb ←← api_lookup "Load_Balancer" (del_lb self);
     Row_delkey ovn_lb "ip_port_mappings" (del_backend_ip self))
    Exception
    (λ _, LOG_exception ("Error deleting backend " +:+ del_backend_ip self
                         +:+ " from ip_port_mappings for LB uuid "
                         +:+ del_lb self)).

Definition AddBackendToIPPortMapping_init
    (lb backend_ip port_name src_ip : string)
    : M World AddBackendToIPPortMapping :=
  v ←← lift (IPNetwork_version backend_ip);
  if bool_decide (v = IP_VERSION_6)
  then ret (mkAdd lb (bracket backend_ip) port_name (bracket src_ip))
  else ret (mkAdd lb backend_ip port_name src_ip).

Definition AddBackendToIPPortMapping_run_idl
    (self : AddBackendToIPPortMapping) : M World unit :=
  try_except
    (lb ←← api_lookup "Load_Balancer" (add_lb self);
     Row_setkey lb "ip_port_mappings" (add_backend_ip self)
       (add_port_name self +:+ ":" +:+ add_src_ip self))
    Exception
    (λ _, LOG_exception ("Error adding backend " +:+ add_backend_ip self
                         +:+ " to ip_port_mappings for LB uuid "
                         +:+ add_lb self)).

(** [OvsdbNbOvnIdl.lb_del_ip_port_mapping] and [lb_add_ip_port_mapping]
    only build the command. *)
Definition lb_del_ip_port_mapping (lb_uuid backend_ip : string)
    : M World DelBackendFromIPPortMapping :=
  DelBackendFromIPPortMapping_init lb_uuid backend_ip.

Definition lb_add_ip_port_mapping (lb_uuid backend_ip port_name src_ip : string)
    : M World AddBackendToIPPortMapping :=
  AddBackendToIPPortMapping_init lb_uuid backend_ip port_name src_ip.

(** The two operations as a caller sees them: the command is built and
    its [run_idl] then runs on the pending transaction. *)
Definition removeMappingEntry (lb_uuid backend_ip : string) : M World unit :=
  cmd ←← lb_del_ip_port_mapping lb_uuid backend_ip;
  DelBackendFromIPPortMapping_run_idl cmd.

Definition addMappingEntry (lb_uuid backend_ip port_name src_ip : string)
    : M World unit :=
  cmd ←← lb_add_ip_port_mapping lb_uuid backend_ip port_name src_ip;
  AddBackendToIPPortMapping_run_idl cmd.

End Commands.

(** A coarse stand-in for netaddr on the textual forms used in the
    examples: hexadecimal groups with a colon are IPv6, dotted decimals
    are IPv4, anything else does not parse. *)
Definition is_hex_digit (a : Ascii.ascii) : bool :=
  bool_decide (a ∈ String.list_ascii_of_string "0123456789abcdefABCDEF").
Definition is_dec_digit (a : Ascii.ascii) : bool :=
  bool_decide (a ∈ String.list_ascii_of_string "0123456789").

Definition example_IPNetwork_version (s : string) : result Z :=
  let cs := String.list_ascii_of_string s in
  if bool_decide (cs = []) then Raise (Exn AddrFormatError s)
  else if bool_decide (":"%char ∈ cs)
          && forallb (λ a, is_hex_digit a || bool_decide (a = ":"%char)) cs
       then Ok 6
  else if bool_decide ("."%char ∈ cs)
          && forallb (λ a, is_dec_digit a || bool_decide (a = "."%char)) cs
       then Ok 4
  else Raise (Exn AddrFormatError s).

(** ** OvnNbTransaction *)

Record OvnNbTransaction := mkTxn {
  check_error : bool;
  log_errors : bool;
  bump_nb_cfg : bool
}.

(** [OvsdbNbOvnIdl.create_transaction], with its keyword defaults. *)
Definition create_transaction (check_error log_errors bump_nb_cfg : option bool)
    : OvnNbTransaction :=
  mkTxn (default false check_error) (default true log_errors)
        (default false bump_nb_cfg).

Definition api_nb_global : M World Row := λ w, (nb_global (idl_tables w), w).

Definition pre_commit (self : OvnNbTransaction) : M World unit :=
  if negb (bump_nb_cfg self) then ret ()
  else
    g ←← api_nb_global;
    Row_increment (mkRef "NB_Global" g) "nb_cfg".

(** *** Reference model of ovsdbapp's transaction context

    [with self.create_transaction(...) as txn: <body>]: the body adds
    commands; leaving it normally commits, that is [pre_commit], then
    every command's [run_idl], then the server's verdict on what is
    sent (nothing is sent, and the server not asked, when the queue holds
    no update).  An exception anywhere aborts; it reaches the caller only
    under [check_error]. *)
Section Ovsdbapp.

Variable verdict : Tables → list mutation → result unit.

Fixpoint run_commands (commands : list (M World unit)) : M World unit :=
  match commands with
  | [] => ret ()
  | c :: rest => c ;;; run_commands rest
  end.

Definition commit_failed (self : OvnNbTransaction) (e : exn) : M World unit :=
  λ w,
  let w1 := aborted w in
  let w2 := if log_errors self
            then snd (log_to LOG_ERROR (exn_msg e) w1) else w1 in
  if check_error self then (Raise e, w2) else (Ok (), w2).

Definition commit (self : OvnNbTransaction) (commands : list (M World unit))
    : M World unit := λ w,
  match (pre_commit self ;;; run_commands commands) w with
  | (Raise e, w') => commit_failed self e w'
  | (Ok _, w') =>
      if any_updates (txn w')
      then match verdict (idl_tables w') (sent_mutations (txn w')) with
           | Ok _ => (Ok (), committed w')
           | Raise e => commit_failed self e w'
           end
      else (Ok (), committed w')
  end.

Definition super_transaction (self : OvnNbTransaction)
    (body : M World (list (M World unit))) : M World unit :=
  commands ←← body;
  commit self commands.

End Ovsdbapp.

(** ** OvsdbNbOvnIdl.transaction

    [inner] is the statement under [try]: the parent's transaction
    context with the caller's block run at the [yield]. *)
Definition transaction (inner : M World unit) : M World unit :=
  try_except inner RevisionConflict
    (λ e, LOG_info ("Transaction aborted. Reason: " +:+ exn_msg e)).

(** ** Backend.check_for_row_by_value_and_retry *)

(** [idlutils.row_by_value]. *)
Fixpoint row_by_value_scan (table column match_ : string) (rs : list Row)
    : result Row :=
  match rs with
  | [] => Raise (Exn RowNotFound
                   ("Cannot find " +:+ table +:+ " with " +:+ column
                    +:+ "=" +:+ match_))
  | r :: rest =>
      v ← getattr r column;
      if bool_decide (v = VStr match_) then Ok r
      else row_by_value_scan table column match_ rest
  end.

Definition row_by_value (idl : Tables) (table column match_ : string)
    : result Row :=
  tab ← getitem idl table;
  row_by_value_scan table column match_ (rows tab).

(** The decorated function's own body: one lookup. *)
Definition check_for_row_by_value (idl : Tables) (table column match_ : string)
    : result unit :=
  match row_by_value idl table column match_ with
  | Ok _ => Ok ()
  | Raise e =>
      if isinstance e RowNotFound
      then Raise (Exn RuntimeError
                    (match_ +:+ " does not exist in " +:+ column
                     +:+ " of " +:+ table))
      else Raise e
  end.

(** The clock counts nanoseconds. *)
Definition second : Z := 1000000000.

(** tenacity's MAX_WAIT, [sys.maxsize / 2] seconds. *)
Definition MAX_WAIT : Z := 2 ^ 62 * second.

(** [tenacity.wait_exponential()]: multiplier 1, base 2, min 0, max
    MAX_WAIT. *)
Definition wait_exponential (attempt_number : nat) : Z :=
  Z.max 0 (Z.min (second * 2 ^ (Z.of_nat attempt_number - 1)) MAX_WAIT).

(** [tenacity.stop_after_delay(10)] *)
Definition stop_after_delay (max_delay seconds_since_start : Z) : bool :=
  bool_decide (max_delay ≤ seconds_since_start).

Record retry_outcome := mkOutcome {
  outcome : result unit;
  attempts : nat;           (* lookups performed *)
  elapsed : Z               (* clock at return, counted from the call *)
}.

Section Retry.

(** The mirror as the n-th attempt sees it, and how long that attempt
    takes; both belong to the environment. *)
Variable mirror : nat → Tables.
Variable cost : nat → Z.
Variables table column match_ : string.

(** tenacity's loop: attempt; on a RuntimeError either give up (the
    delay has passed, [reraise=True]) or sleep and go round again. *)
Fixpoint retrying (fuel attempt_number : nat) (now : Z)
    : option retry_outcome :=
  match fuel with
  | O => None
  | S fuel' =>
      let r := check_for_row_by_value (mirror attempt_number)
                 table column match_ in
      let now' := now + cost attempt_number in
      match r with
      | Ok _ => Some (mkOutcome r attempt_number now')
      | Raise e =>
          if negb (isinstance e RuntimeError)
          then Some (mkOutcome r attempt_number now')
          else if stop_after_delay (10 * second) now'
          then Some (mkOutcome r attempt_number now')
          else retrying fuel' (S attempt_number)
                 (now' + wait_exponential attempt_number)
      end
  end.

Definition check_for_row_by_value_and_retry (fuel : nat)
    : option retry_outcome :=
  retrying fuel 1%nat 0.

End Retry.

(** ** OvnSbIdlForLb.start, OvnSbIdlForLb.stop *)

Inductive sb_call :=
| CallConnStop (timeout : Z)
| CallLogDebug (msg : string)
| CallNotifyShutdown
| CallIdlClose.

Section SbIdl.

(** The connection thread, the notification handler and the IDL session
    are objects of ovsdbapp and ovs; only the calls made on them are
    fixed here. *)
Context {Conn Handler Session : Type}.
Variable new_Connection : Z → Conn.
Variable Connection_stop : Conn → Z → bool.
Variable Handler_shutdown : Handler → Handler.
Variable Idl_close : Session → Session.
Variable get_ovn_ovsdb_timeout : Z.

Record OvnSbIdlForLb := mkSb {
  conn : option Conn;        (* [None]: the attribute is not set *)
  notify_handler : Handler;
  session : Session
}.

Definition start (self : OvnSbIdlForLb) : OvnSbIdlForLb :=
  mkSb (Some (new_Connection get_ovn_ovsdb_timeout))
       (notify_handler self) (session self).

(** Returns the calls made on the collaborators, in order, and the
    object afterwards. *)
Definition stop (self : OvnSbIdlForLb) : list sb_call * OvnSbIdlForLb :=
  let '(calls, self1) :=
    match conn self with
    | Some c =>
        let stopped := Connection_stop c get_ovn_ovsdb_timeout in
        ([CallConnStop get_ovn_ovsdb_timeout] ++
         (if negb stopped
          then [CallLogDebug ("Connection terminated to OvnSb "
                              +:+ "but a thread is still alive")]
          else []),
         mkSb None (notify_handler self) (session self))
    | None => ([], self)
    end in
  let self2 := mkSb (conn self1) (Handler_shutdown (notify_handler self1))
                    (session self1) in
  let self3 := mkSb (conn self2) (notify_handler self2)
                    (Idl_close (session self2)) in
  (calls ++ [CallNotifyShutdown; CallIdlClose], self3).

End SbIdl.

(** ** Vocabulary of the statements *)

(** The row's [load_balancer] references contain [lb]. *)
Definition references (lb : string) (r : Row) : bool :=
  match row_data r !! "load_balancer" with
  | Some (VRefs l) => bool_decide (lb ∈ l)
  | _ => false
  end.

Definition has_load_balancer_refs (r : Row) : Prop :=
  ∃ l, row_data r !! "load_balancer" = Some (VRefs l).

(** [m] raises nothing outside the class [cls]. *)
Definition raises_only {A} (cls : exn_class) (m : M World A) : Prop :=
  ∀ w e w', m w = (Raise e, w') → isinstance e cls = true.

Definition api_raises_only (cls : exn_class) (api : MirrorApi) : Prop :=
  (∀ table record, raises_only cls (api_lookup table record))
  ∧ (∀ r column key value, raises_only cls (Row_setkey r column key value))
  ∧ (∀ r column key, raises_only cls (Row_delkey r column key)).

(** A mirror whose rows refuse every mutation. *)
Definition failing_api : MirrorApi := {|
  api_lookup := idl_lookup;
  Row_setkey := λ _ _ _ _, raise (Exn RuntimeError "mutation refused");
  Row_delkey := λ _ _ _, raise (Exn RuntimeError "mutation refused")
|}.

(** Brackets decided by the family of the backend address. *)
Definition bracket_if_v6 (v : Z) (ip : string) : string :=
  if bool_decide (v = IP_VERSION_6) then bracket ip else ip.

(** Brackets decided by the family of the address itself, as the
    specification words it; an address that does not parse is kept. *)
Definition normalized (IPNetwork_version : string → result Z) (ip : string)
    : string :=
  match IPNetwork_version ip with
  | Ok v => bracket_if_v6 v ip
  | Raise _ => ip
  end.

Definition never_visible (mirror : nat → Tables) (table column match_ : string)
    : Prop :=
  ∀ n, ∃ e, row_by_value (mirror n) table column match_ = Raise e
            ∧ isinstance e RowNotFound = true.

(** The error the caller of the retried check receives. *)
Definition not_found (table column match_ : string) : exn :=
  Exn RuntimeError (match_ +:+ " does not exist in " +:+ column
                    +:+ " of " +:+ table).

Definition count_increments (mus : list mutation) : nat :=
  length (List.filter is_increment mus).

(** [api.nb_global.nb_cfg] *)
Definition read_nb_cfg (ts : Tables) : result Value :=
  g ← nb_global ts;
  getattr g "nb_cfg".

(** The block of a caller's [with api.transaction(...) as txn]: two
    commands are built and added, one setting a mapping, one removing
    another. *)
Definition ex_body (IPNetwork_version : string → result Z)
    : M World (list (M World unit)) :=
  add ←← lb_add_ip_port_mapping IPNetwork_version
           "lb-1" "10.0.0.1" "port-a" "10.0.0.2";
  del ←← lb_del_ip_port_mapping IPNetwork_version "lb-1" "10.0.0.9";
  ret [AddBackendToIPPortMapping_run_idl add;
       DelBackendFromIPPortMapping_run_idl del].

(** ** A small mirror for the examples *)

Definition ex_lb_row : Row :=
  mkRow "lb-1" {[ "name" := VStr "web"; "ip_port_mappings" := VMap ∅ ]}.

Definition ex_ls_rows : list Row :=
  [ mkRow "ls-1" {[ "name" := VStr "net-a"; "load_balancer" := VRefs ["lb-1"] ]};
    mkRow "ls-2" {[ "name" := VStr "net-b"; "load_balancer" := VRefs [] ]};
    mkRow "ls-3" {[ "name" := VStr "net-c";
                    "load_balancer" := VRefs ["lb-9"; "lb-1"] ]} ].

Definition ex_nb_global_row : Row := mkRow "nbg" {[ "nb_cfg" := VInt 7 ]}.

Definition ex_tables : Tables :=
  {[ "Load_Balancer" := mkTable {[ "name"; "ip_port_mappings" ]} [ex_lb_row];
     "Logical_Switch" := mkTable {[ "name"; "load_balancer" ]} ex_ls_rows;
     "NB_Global" := mkTable {[ "nb_cfg" ]} [ex_nb_global_row] ]}.

Definition ex_world : World := mkWorld ex_tables [] [].

(** A mirror whose NB_Global table is registered but empty. *)
Definition ex_tables_no_global : Tables :=
  <[ "NB_Global" := mkTable {[ "nb_cfg" ]} [] ]> ex_tables.

(** The mirror before the logical switches have arrived. *)
Definition ex_tables_no_switch : Tables :=
  <[ "Logical_Switch" := mkTable {[ "name"; "load_balancer" ]} [] ]> ex_tables.

(** A server that rejects every transaction with a revision conflict,
    and one that accepts every transaction. *)
Definition verdict_conflict : Tables → list mutation → result unit :=
  λ _ _, Raise (Exn RevisionConflict "OVN revision number is equal or higher").
Definition verdict_accept : Tables → list mutation → result unit :=
  λ _ _, Ok ().


(** Collaborators of [OvnSbIdlForLb] reduced to what is observable of
    them: a handler that is running or not, a session open or not, and a
    connection thread that always joins in time. *)
Definition ex_shutdown : bool → bool := λ _, false.
Definition ex_close : bool → bool := λ _, false.
Definition ex_conn_stop : unit → Z → bool := λ _ _, true.
Definition ex_fresh_sb : @OvnSbIdlForLb unit bool bool := mkSb None true true.
Definition ex_stop := stop ex_conn_stop ex_shutdown ex_close 180.

(** The clock at which attempt [n + d] begins, when attempt [n] begins
    at [now] and every attempt in between fails and is retried. *)
Fixpoint attempt_start (cost : nat → Z) (n : nat) (now : Z) (d : nat) : Z :=
  match d with
  | O => now
  | S d' => attempt_start cost (S n) (now + cost n + wait_exponential n) d'
  end.

(** The time the lookups of attempts [n], ..., [n + d - 1] take. *)
Fixpoint lookups_time (cost : nat → Z) (n d : nat) : Z :=
  match d with
  | O => 0
  | S d' => cost n + lookups_time cost (S n) d'
  end.

(** The lookup of attempt [n] finds no row. *)
Definition not_visible_at (mirror : nat → Tables)
    (table column match_ : string) (n : nat) : Prop :=
  ∃ e, row_by_value (mirror n) table column match_ = Raise e
       ∧ isinstance e RowNotFound = true.

(** A mirror whose lookups are interrupted from the keyboard. *)
Definition interrupted_api : MirrorApi := {|
  api_lookup := λ _ _, raise (Exn KeyboardInterrupt "");
  Row_setkey := idl_setkey;
  Row_delkey := idl_delkey
|}.

(** A mirror with a Logical_Router table: one router references lb-1,
    and one row of a table without the [load_balancer] column. *)
Definition ex_lr_rows : list Row :=
  [ mkRow "lr-1" {[ "name" := VStr "r1"; "load_balancer" := VRefs ["lb-1"] ]};
    mkRow "lr-2" {[ "name" := VStr "r2"; "load_balancer" := VRefs ["lb-7"] ]} ].

Definition ex_tables_routers : Tables :=
  <[ "Logical_Router" := mkTable {[ "name"; "load_balancer" ]} ex_lr_rows ]>
    ex_tables.

(** * Properties *)

(** ** Backend.is_col_present *)

(** C6: [is_col_present] never raises; it answers false for a table that
    is not registered and otherwise tells whether the column name is
    among the columns of that table. *)
Theorem is_col_present_spec (_tables : Tables) (table_name col_name : string) :
  is_col_present _tables table_name col_name =
  Ok (match _tables !! table_name with
      | None => false
      | Some t => bool_decide (col_name ∈ columns t)
      end).
Proof.
  unfold is_col_present, is_table_present, getitem.
  destruct (_tables !! table_name) as [t|] eqn:Ht.
  - rewrite bool_decide_eq_true_2 by eauto. reflexivity.
  - rewrite bool_decide_eq_false_2; [reflexivity|].
    intros [t Ht']. discriminate.
Qed.

Example is_col_present_no_such_table :
  is_col_present ex_tables "NoSuchTable" "x" = Ok false.
Proof. reflexivity. Qed.

Example is_col_present_examples :
  is_col_present ex_tables "Load_Balancer" "ip_port_mappings" = Ok true
  ∧ is_col_present ex_tables "Load_Balancer" "nb_cfg" = Ok false.
Proof. split; vm_compute; reflexivity. Qed.

(** ** OvsdbNbOvnIdl.nb_global *)

(** C10: with the NB_Global table registered, [nb_global] returns the
    first row when there is one and raises StopIteration when the table
    is empty. *)
Theorem nb_global_first_or_stop (api_tables : Tables) (t : Table) :
  api_tables !! "NB_Global" = Some t →
  (∀ r rest, rows t = r :: rest → nb_global api_tables = Ok r)
  ∧ (rows t = [] → nb_global api_tables = Raise (Exn StopIteration "")).
Proof.
  intros Ht. unfold nb_global, getitem. rewrite Ht. cbn.
  split.
  - intros r rest ->. reflexivity.
  - intros ->. reflexivity.
Qed.

Lemma nb_global_first_or_stop_witness :
  nb_global ex_tables = Ok ex_nb_global_row
  ∧ nb_global ex_tables_no_global = Raise (Exn StopIteration "").
Proof.
  split.
  - apply (proj1 (nb_global_first_or_stop ex_tables
                    (mkTable {[ "nb_cfg" ]} [ex_nb_global_row]) eq_refl)
             ex_nb_global_row []).
    reflexivity.
  - apply (proj2 (nb_global_first_or_stop ex_tables_no_global
                    (mkTable {[ "nb_cfg" ]} []) eq_refl)).
    reflexivity.
Defined.

(** ** FindLbInTableCommand *)

Lemma find_lb_comprehension_filter (lb : string) (items : list Row) :
  Forall has_load_balancer_refs items →
  find_lb_comprehension lb items
  = Ok (mkRowView <$> List.filter (references lb) items).
Proof.
  induction 1 as [|item rest [l Hl] _ IH]; [reflexivity|].
  cbn [find_lb_comprehension List.filter].
  unfold getattr, references. rewrite Hl. cbn. rewrite IH. cbn.
  destruct (bool_decide (lb ∈ l)); reflexivity.
Qed.

Lemma filter_none {A} (p : A → bool) (l : list A) :
  Forall (λ x, p x = false) l → List.filter p l = [].
Proof.
  induction 1 as [|x l Hx _ IH]; [reflexivity|].
  cbn. rewrite Hx. exact IH.
Qed.

(** C7: on a registered table whose rows carry the [load_balancer]
    reference set, the command returns, in table order, a view of exactly
    the rows whose set contains the owner; when no row does, the result
    is the empty list and nothing is raised. *)
Theorem find_lb_in_table_spec (api_tables : Tables) (table lb : string)
    (t : Table) :
  api_tables !! table = Some t →
  Forall has_load_balancer_refs (rows t) →
  FindLbInTableCommand_run_idl api_tables lb table
  = Ok (mkRowView <$> List.filter (references lb) (rows t))
  ∧ (Forall (λ r, references lb r = false) (rows t) →
     FindLbInTableCommand_run_idl api_tables lb table = Ok []).
Proof.
  intros Ht Hrefs.
  assert (FindLbInTableCommand_run_idl api_tables lb table
          = Ok (mkRowView <$> List.filter (references lb) (rows t))) as Hrun.
  { unfold FindLbInTableCommand_run_idl, getitem. rewrite Ht. cbn.
    by apply find_lb_comprehension_filter. }
  split; [exact Hrun|].
  intros Hnone. rewrite Hrun, (filter_none _ _ Hnone). reflexivity.
Qed.

Lemma ex_ls_rows_have_refs : Forall has_load_balancer_refs ex_ls_rows.
Proof.
  repeat constructor; eexists; reflexivity.
Defined.

Lemma find_lb_in_table_spec_witness :
  FindLbInTableCommand_run_idl ex_tables "lb-1" "Logical_Switch"
  = Ok (mkRowView <$> List.filter (references "lb-1") ex_ls_rows).
Proof.
  exact (proj1 (find_lb_in_table_spec ex_tables "Logical_Switch" "lb-1"
                  (mkTable {[ "name"; "load_balancer" ]} ex_ls_rows)
                  eq_refl ex_ls_rows_have_refs)).
Defined.

Example find_lb_in_table_examples :
  _row <$> List.filter (λ _, true) [] = []
  ∧ (FindLbInTableCommand_run_idl ex_tables "lb-1" "Logical_Switch"
     = Ok [mkRowView (mkRow "ls-1" {[ "name" := VStr "net-a";
                                      "load_balancer" := VRefs ["lb-1"] ]});
           mkRowView (mkRow "ls-3" {[ "name" := VStr "net-c";
                                      "load_balancer" := VRefs ["lb-9"; "lb-1"] ]})])
  ∧ FindLbInTableCommand_run_idl ex_tables "lb-2" "Logical_Switch" = Ok []
  ∧ FindLbInTableCommand_run_idl ex_tables "lb-1" "Port_Group"
    = Raise (Exn KeyError "Port_Group")
  ∧ FindLbInTableCommand_run_idl ex_tables "lb-1" "NB_Global"
    = Raise (Exn AttributeError "load_balancer").
Proof. repeat split; vm_compute; reflexivity. Qed.

(** ** Errors of the library calls *)

Lemma lookup_in_raises_Exception (ts : Tables) (table record : string) (e : exn) :
  lookup_in ts table record = Raise e → isinstance e Exception = true.
Proof.
  unfold lookup_in, getitem.
  destruct (ts !! table) as [t|]; cbn.
  - destruct (find_row record (rows t)); [discriminate|].
    intros [= <-]. reflexivity.
  - intros [= <-]. reflexivity.
Qed.

(** ** Reading a row back once a mutation has reached the mirror *)

Lemma find_fmap {A} (p : A → bool) (f : A → A) (l : list A) :
  (∀ x, p (f x) = p x) → List.find p (f <$> l) = f <$> List.find p l.
Proof.
  intros Hp. induction l as [|x l IH]; [reflexivity|].
  cbn. rewrite Hp. destruct (p x); [reflexivity|exact IH].
Qed.

Lemma find_row_fmap (record : string) (f : Row → Row) (rs : list Row) :
  (∀ r, uuid (f r) = uuid r) →
  (∀ r, row_data (f r) !! "name" = row_data r !! "name") →
  find_row record (f <$> rs) = f <$> find_row record rs.
Proof.
  intros Hu Hn. unfold find_row.
  rewrite !find_fmap.
  - destruct (List.find _ rs); [reflexivity|].
    destruct (List.find _ rs); reflexivity.
  - intros r. by rewrite Hn.
  - intros r. by rewrite Hu.
Qed.

Lemma mutate_row_uuid (mu : mutation) (r : Row) : uuid (mutate_row mu r) = uuid r.
Proof.
  unfold mutate_row. destruct (mutation_target mu) as [[t u] c].
  destruct (bool_decide (uuid r = u)); reflexivity.
Qed.

Lemma mutate_row_other_column (mu : mutation) (r : Row) (column : string) :
  (mutation_target mu).2 ≠ column →
  row_data (mutate_row mu r) !! column = row_data r !! column.
Proof.
  unfold mutate_row. destruct (mutation_target mu) as [[t u] c]. cbn.
  intros Hc. destruct (bool_decide (uuid r = u)); [|reflexivity].
  cbn. by rewrite lookup_alter_ne.
Qed.

Lemma lookup_after_mutation (ts : Tables) (table record : string)
    (r : RowRef) (mu : mutation) :
  lookup_in ts table record = Ok r →
  (mutation_target mu).1.1 = table →
  (mutation_target mu).2 ≠ "name" →
  lookup_in (apply_mutation ts mu) table record
  = Ok (mkRef table (mutate_row mu (ref_row r))).
Proof.
  intros Hlook Htable Hname.
  unfold lookup_in, getitem in Hlook |- *.
  destruct (ts !! table) as [t|] eqn:Ht; [|discriminate]. cbn in Hlook.
  destruct (find_row record (rows t)) as [r0|] eqn:Hfind; [|discriminate].
  injection Hlook as <-.
  unfold apply_mutation.
  destruct (mutation_target mu) as [[t' u] c] eqn:Htarget.
  cbn in Htable, Hname. subst t'.
  rewrite lookup_alter_eq, Ht. cbn.
  rewrite find_row_fmap, Hfind; [reflexivity|apply mutate_row_uuid|].
  intros r. apply mutate_row_other_column. by rewrite Htarget.
Qed.

(** Several mutations of one column of the row that is looked up. *)
Lemma read_after_mutations (table record column : string)
    (mus : list mutation) :
  ∀ (ts : Tables) (r : RowRef) (v : Value),
    lookup_in ts table record = Ok r →
    row_data (ref_row r) !! column = Some v →
    column ≠ "name" →
    Forall (λ mu, mutation_target mu = (table, uuid (ref_row r), column)) mus →
    ∃ r', lookup_in (apply_mutations mus ts) table record = Ok r'
          ∧ uuid (ref_row r') = uuid (ref_row r)
          ∧ row_data (ref_row r') !! column
            = Some (foldl (λ x mu, mutate_value mu x) v mus).
Proof.
  induction mus as [|mu mus IH]; intros ts r v Hlook Hv Hname Htargets.
  - exists r. by repeat split.
  - apply Forall_cons in Htargets as [Hmu Hmus].
    pose proof (lookup_after_mutation ts table record r mu Hlook) as Hlook1.
    rewrite Hmu in Hlook1. specialize (Hlook1 eq_refl Hname).
    assert (row_data (mutate_row mu (ref_row r)) !! column
            = Some (mutate_value mu v)) as Hv1.
    { unfold mutate_row. rewrite Hmu.
      rewrite bool_decide_eq_true_2 by reflexivity. cbn.
      by rewrite lookup_alter_eq, Hv. }
    destruct (IH (apply_mutation ts mu) _ (mutate_value mu v) Hlook1 Hv1 Hname)
      as (r' & Hlook' & Huuid & Hdata).
    { cbn [ref_row]. rewrite mutate_row_uuid. exact Hmus. }
    exists r'. split; [exact Hlook'|]. split; [|exact Hdata].
    rewrite Huuid. cbn [ref_row]. apply mutate_row_uuid.
Qed.

Lemma read_column_found (ts : Tables) (table record column : string)
    (r : RowRef) (v : Value) :
  lookup_in ts table record = Ok r →
  row_data (ref_row r) !! column = Some v →
  read_column ts table record column = Ok v.
Proof.
  intros Hlook Hv. unfold read_column, getattr. rewrite Hlook. cbn.
  by rewrite Hv.
Qed.

(** ** Building the two mapping commands *)

(** C9: the address is parsed while the command is built, outside the
    handler of [run_idl]: a backend address netaddr rejects makes either
    constructor raise that error to the caller, with nothing logged and
    nothing queued, so building and running the command raises as well. *)
Theorem mapping_commands_parse_error (IPNetwork_version : string → result Z)
    {api : MirrorApi} (lb backend_ip port_name src_ip : string) (e : exn)
    (w : World) :
  IPNetwork_version backend_ip = Raise e →
  DelBackendFromIPPortMapping_init IPNetwork_version lb backend_ip w
  = (Raise e, w)
  ∧ AddBackendToIPPortMapping_init IPNetwork_version lb backend_ip
      port_name src_ip w = (Raise e, w)
  ∧ removeMappingEntry IPNetwork_version lb backend_ip w = (Raise e, w)
  ∧ addMappingEntry IPNetwork_version lb backend_ip port_name src_ip w
    = (Raise e, w).
Proof.
  intros Hparse.
  unfold removeMappingEntry, addMappingEntry, lb_del_ip_port_mapping,
    lb_add_ip_port_mapping, DelBackendFromIPPortMapping_init,
    AddBackendToIPPortMapping_init, bind, lift.
  rewrite Hparse. repeat split.
Qed.

Lemma mapping_commands_parse_error_witness :
  removeMappingEntry example_IPNetwork_version "lb-1" "not-an-ip" ex_world
  = (Raise (Exn AddrFormatError "not-an-ip"), ex_world)
  ∧ addMappingEntry example_IPNetwork_version "lb-1" "not-an-ip"
      "port-a" "10.0.0.2" ex_world
    = (Raise (Exn AddrFormatError "not-an-ip"), ex_world).
Proof.
  pose proof (mapping_commands_parse_error example_IPNetwork_version
                (api := idl_api) "lb-1" "not-an-ip" "port-a" "10.0.0.2"
                (Exn AddrFormatError "not-an-ip") ex_world eq_refl)
    as (_ & _ & Hdel & Hadd).
  split; assumption.
Defined.

(** ** DelBackendFromIPPortMapping *)

Lemma lookup_in_table (ts : Tables) (table record : string) (r : RowRef) :
  lookup_in ts table record = Ok r → ref_table r = table.
Proof.
  unfold lookup_in, getitem.
  destruct (ts !! table) as [t|]; [|discriminate]. cbn.
  destruct (find_row record (rows t)); [|discriminate].
  by intros [= <-].
Qed.

Lemma del_run_idl_found (self : DelBackendFromIPPortMapping) (w : World)
    (r : RowRef) :
  lookup_in (idl_tables w) "Load_Balancer" (del_lb self) = Ok r →
  DelBackendFromIPPortMapping_run_idl self w
  = (Ok (), mkWorld (idl_tables w)
              (txn w ++ [MutDelKey "Load_Balancer" (uuid (ref_row r))
                           "ip_port_mappings" (del_backend_ip self)])
              (LOG w)).
Proof.
  intros Hlook.
  unfold DelBackendFromIPPortMapping_run_idl, try_except, bind.
  cbn [api_lookup Row_delkey idl_api]. unfold idl_lookup, idl_delkey.
  rewrite Hlook. cbn. unfold queue.
  by rewrite (lookup_in_table _ _ _ _ Hlook).
Qed.

Lemma del_run_idl_not_found (self : DelBackendFromIPPortMapping) (w : World)
    (e : exn) :
  lookup_in (idl_tables w) "Load_Balancer" (del_lb self) = Raise e →
  DelBackendFromIPPortMapping_run_idl self w
  = (Ok (), mkWorld (idl_tables w) (txn w)
              (LOG w ++ [mkLog LOG_ERROR
                           ("Error deleting backend " +:+ del_backend_ip self
                            +:+ " from ip_port_mappings for LB uuid "
                            +:+ del_lb self)])).
Proof.
  intros Hlook.
  unfold DelBackendFromIPPortMapping_run_idl, try_except, bind.
  cbn [api_lookup idl_api]. unfold idl_lookup.
  rewrite Hlook, (lookup_in_raises_Exception _ _ _ _ Hlook). reflexivity.
Qed.

(** Whatever the mirror holds, running the command ends normally and
    leaves the mirror as it was. *)
Lemma del_run_idl_never_raises (self : DelBackendFromIPPortMapping) (w : World) :
  ∃ w', DelBackendFromIPPortMapping_run_idl self w = (Ok (), w')
        ∧ idl_tables w' = idl_tables w.
Proof.
  destruct (lookup_in (idl_tables w) "Load_Balancer" (del_lb self))
    as [r|e] eqn:Hlook.
  - rewrite (del_run_idl_found _ _ _ Hlook). eauto.
  - rewrite (del_run_idl_not_found _ _ _ Hlook). eauto.
Qed.

Lemma idl_api_raises_only_Exception : api_raises_only Exception idl_api.
Proof.
  split; [|split].
  - intros table record w e w' Hrun. cbn in Hrun. unfold idl_lookup in Hrun.
    injection Hrun as Hrun _. by eapply lookup_in_raises_Exception.
  - intros r column key value w e w'. cbn. unfold idl_setkey.
    destruct (row_data (ref_row r) !! column) as [[]|]; cbn; try discriminate.
    by intros [= <- _].
  - intros r column key w e w'. cbn. discriminate.
Qed.

Lemma failing_api_raises_only_Exception : api_raises_only Exception failing_api.
Proof.
  split; [|split].
  - apply idl_api_raises_only_Exception.
  - intros r column key value w e w'. cbn. by intros [= <- _].
  - intros r column key w e w'. cbn. by intros [= <- _].
Qed.

(** Whatever [api.lookup] and [row.delkey] do, as long as they raise
    nothing outside [Exception], running the command ends normally, and
    an error they raise ends up in the log. *)
Lemma del_run_idl_catches {api : MirrorApi}
    (self : DelBackendFromIPPortMapping) (w : World) :
  api_raises_only Exception api →
  ∃ w', DelBackendFromIPPortMapping_run_idl self w = (Ok (), w')
        ∧ ∀ e w1,
            (ovn_lb ←← api_lookup "Load_Balancer" (del_lb self);
             Row_delkey ovn_lb "ip_port_mappings" (del_backend_ip self)) w
            = (Raise e, w1) →
            w' = mkWorld (idl_tables w1) (txn w1)
                   (LOG w1 ++ [mkLog LOG_ERROR
                                 ("Error deleting backend "
                                  +:+ del_backend_ip self
                                  +:+ " from ip_port_mappings for LB uuid "
                                  +:+ del_lb self)]).
Proof.
  intros (Hlookup & _ & Hdelkey).
  unfold DelBackendFromIPPortMapping_run_idl, try_except.
  destruct ((ovn_lb ←← api_lookup "Load_Balancer" (del_lb self);
             Row_delkey ovn_lb "ip_port_mappings" (del_backend_ip self)) w)
    as [[[]|e] w1] eqn:Hbody.
  - eexists. split; [reflexivity|]. intros e w2 [=].
  - assert (isinstance e Exception = true) as ->.
    { unfold bind in Hbody.
      destruct (api_lookup "Load_Balancer" (del_lb self) w)
        as [[r|e0] w0] eqn:Hl.
      - by eapply Hdelkey.
      - injection Hbody as <- <-. by eapply Hlookup. }
    eexists. split; [reflexivity|]. by intros e' w2 [= <- <-].
Qed.

(** C4: for a backend address that parses, the remove command uses the
    address bracketed iff it is IPv6 as the key and never raises: whatever
    error the lookup of the owner or the removal raise is caught and
    logged with the key and the owner id.  On the
    mirror itself the command leaves the tables untouched while it runs;
    when the owner is not found the failure is logged and nothing is
    queued; when the owner is found the removal of that key is queued and,
    once committed, the owner's map is the old map without the key, hence
    the old map itself when the key was not in it. *)
Theorem del_backend_best_effort (IPNetwork_version : string → result Z)
    (lb backend_ip : string) (v : Z) (w : World) :
  IPNetwork_version backend_ip = Ok v →
  (∀ api : MirrorApi, api_raises_only Exception api →
     ∃ w', removeMappingEntry IPNetwork_version lb backend_ip w = (Ok (), w')
           ∧ ∀ e w1,
               (ovn_lb ←← api_lookup "Load_Balancer" lb;
                Row_delkey ovn_lb "ip_port_mappings"
                  (bracket_if_v6 v backend_ip)) w = (Raise e, w1) →
               w' = mkWorld (idl_tables w1) (txn w1)
                      (LOG w1 ++ [mkLog LOG_ERROR
                                    ("Error deleting backend "
                                     +:+ bracket_if_v6 v backend_ip
                                     +:+ " from ip_port_mappings for LB uuid "
                                     +:+ lb)]))
  ∧ ∃ w',
    removeMappingEntry (api := idl_api) IPNetwork_version lb backend_ip w
    = (Ok (), w')
    ∧ idl_tables w' = idl_tables w
    ∧ (∀ e, lookup_in (idl_tables w) "Load_Balancer" lb = Raise e →
         txn w' = txn w
         ∧ LOG w' = LOG w ++
             [mkLog LOG_ERROR
                ("Error deleting backend " +:+ bracket_if_v6 v backend_ip
                 +:+ " from ip_port_mappings for LB uuid " +:+ lb)])
    ∧ (∀ r m,
         lookup_in (idl_tables w) "Load_Balancer" lb = Ok r →
         row_data (ref_row r) !! "ip_port_mappings" = Some (VMap m) →
         txn w' = txn w ++ [MutDelKey "Load_Balancer" (uuid (ref_row r))
                              "ip_port_mappings" (bracket_if_v6 v backend_ip)]
         ∧ LOG w' = LOG w
         ∧ (txn w = [] →
            read_column (idl_tables (committed w')) "Load_Balancer" lb
              "ip_port_mappings"
            = Ok (VMap (delete (bracket_if_v6 v backend_ip) m))
            ∧ (m !! bracket_if_v6 v backend_ip = None →
               read_column (idl_tables (committed w')) "Load_Balancer" lb
                 "ip_port_mappings" = Ok (VMap m)))).
Proof.
  intros Hparse.
  set (self := mkDel lb (bracket_if_v6 v backend_ip)).
  assert (∀ api : MirrorApi,
            removeMappingEntry IPNetwork_version lb backend_ip w
            = DelBackendFromIPPortMapping_run_idl self w) as Hrun.
  { intros api.
    unfold removeMappingEntry, lb_del_ip_port_mapping,
      DelBackendFromIPPortMapping_init, bind, lift.
    rewrite Hparse. unfold self, bracket_if_v6.
    destruct (bool_decide (v = IP_VERSION_6)); reflexivity. }
  split.
  { intros api Hapi. rewrite Hrun.
    exact (del_run_idl_catches self w Hapi). }
  destruct (del_run_idl_never_raises self w) as (w' & Hw' & Htables).
  exists w'. rewrite Hrun.
  split; [exact Hw'|]. split; [exact Htables|]. split.
  - intros e Hlook.
    rewrite (del_run_idl_not_found self w e Hlook) in Hw'.
    by injection Hw' as <-.
  - intros r m Hlook Hmap.
    rewrite (del_run_idl_found self w r Hlook) in Hw'. injection Hw' as <-.
    split; [reflexivity|]. split; [reflexivity|].
    intros Hfresh.
    assert (read_column (idl_tables (committed
              (mkWorld (idl_tables w)
                 (txn w ++ [MutDelKey "Load_Balancer" (uuid (ref_row r))
                              "ip_port_mappings" (bracket_if_v6 v backend_ip)])
                 (LOG w)))) "Load_Balancer" lb "ip_port_mappings"
            = Ok (VMap (delete (bracket_if_v6 v backend_ip) m))) as Hread.
    { destruct (read_after_mutations "Load_Balancer" lb "ip_port_mappings"
                  [MutDelKey "Load_Balancer" (uuid (ref_row r))
                     "ip_port_mappings" (bracket_if_v6 v backend_ip)]
                  (idl_tables w) r (VMap m) Hlook Hmap)
        as (r' & Hlook' & _ & Hdata); [discriminate|by repeat constructor|].
      unfold committed. cbn [idl_tables txn]. rewrite Hfresh.
      exact (read_column_found _ _ _ _ _ _ Hlook' Hdata). }
    split; [exact Hread|].
    intros Habsent. rewrite Hread. by rewrite delete_id.
Qed.

Lemma del_backend_best_effort_witness :
  (∃ w', removeMappingEntry (api := failing_api) example_IPNetwork_version
           "lb-1" "2001:db8::1" ex_world = (Ok (), w'))
  ∧ ∃ w', removeMappingEntry example_IPNetwork_version
            "lb-1" "2001:db8::1" ex_world = (Ok (), w')
          ∧ txn w' = [MutDelKey "Load_Balancer" "lb-1" "ip_port_mappings"
                        "[2001:db8::1]"]
          ∧ read_column (idl_tables (committed w')) "Load_Balancer" "lb-1"
              "ip_port_mappings" = Ok (VMap ∅).
Proof.
  destruct (del_backend_best_effort example_IPNetwork_version
              "lb-1" "2001:db8::1" 6 ex_world eq_refl)
    as (Hany & w' & Hrun & _ & _ & Hfound).
  split.
  - destruct (Hany failing_api failing_api_raises_only_Exception)
      as (w'' & Hrun'' & _).
    exists w''. exact Hrun''.
  - destruct (Hfound (mkRef "Load_Balancer" ex_lb_row) ∅ eq_refl eq_refl)
      as (Hq & _ & Hread).
    exists w'. split; [exact Hrun|]. split; [exact Hq|].
    exact (proj2 (Hread eq_refl) eq_refl).
Defined.

Example del_backend_unknown_owner :
  removeMappingEntry example_IPNetwork_version "lb-404" "10.0.0.1" ex_world
  = (Ok (), mkWorld ex_tables []
              [mkLog LOG_ERROR
                 "Error deleting backend 10.0.0.1 from ip_port_mappings for LB uuid lb-404"]).
Proof. vm_compute. reflexivity. Qed.

Example del_backend_mutation_error_caught :
  removeMappingEntry (api := failing_api) example_IPNetwork_version
    "lb-1" "10.0.0.1" ex_world
  = (Ok (), mkWorld ex_tables []
              [mkLog LOG_ERROR
                 "Error deleting backend 10.0.0.1 from ip_port_mappings for LB uuid lb-1"]).
Proof. vm_compute. reflexivity. Qed.

(** ** AddBackendToIPPortMapping *)

Lemma add_run_idl_found (self : AddBackendToIPPortMapping) (w : World)
    (r : RowRef) (m : gmap string string) :
  lookup_in (idl_tables w) "Load_Balancer" (add_lb self) = Ok r →
  row_data (ref_row r) !! "ip_port_mappings" = Some (VMap m) →
  AddBackendToIPPortMapping_run_idl self w
  = (Ok (), mkWorld (idl_tables w)
              (txn w ++ [MutSetKey "Load_Balancer" (uuid (ref_row r))
                           "ip_port_mappings" (add_backend_ip self)
                           (add_port_name self +:+ ":" +:+ add_src_ip self)])
              (LOG w)).
Proof.
  intros Hlook Hmap.
  unfold AddBackendToIPPortMapping_run_idl, try_except, bind.
  cbn [api_lookup Row_setkey idl_api]. unfold idl_lookup.
  rewrite Hlook. cbn. unfold idl_setkey. rewrite Hmap. unfold queue.
  by rewrite (lookup_in_table _ _ _ _ Hlook).
Qed.

(** The add command is best-effort as well: running it never raises. *)
Lemma add_run_idl_never_raises (self : AddBackendToIPPortMapping) (w : World) :
  ∃ w', AddBackendToIPPortMapping_run_idl self w = (Ok (), w')
        ∧ idl_tables w' = idl_tables w.
Proof.
  unfold AddBackendToIPPortMapping_run_idl, try_except, bind.
  cbn [api_lookup Row_setkey idl_api]. unfold idl_lookup.
  destruct (lookup_in (idl_tables w) "Load_Balancer" (add_lb self))
    as [r|e] eqn:Hlook.
  - unfold idl_setkey.
    destruct (row_data (ref_row r) !! "ip_port_mappings") as [[]|];
      cbn; eauto.
  - rewrite (lookup_in_raises_Exception _ _ _ _ Hlook). cbn. eauto.
Qed.

(** C1, as the code has it: one test, on the backend address, decides the
    brackets of both addresses.  For a backend address that parses and an
    owner that is found with a map column, the add command queues the key
    (backend address, bracketed iff the backend is IPv6) with the value
    port name, colon, source address (bracketed iff the backend is IPv6);
    committing it makes the owner's map the old map with that entry set. *)
Theorem add_backend_brackets_by_backend_family
    (IPNetwork_version : string → result Z)
    (lb backend_ip port_name src_ip : string) (v : Z) (r : RowRef)
    (m : gmap string string) (w : World) :
  IPNetwork_version backend_ip = Ok v →
  lookup_in (idl_tables w) "Load_Balancer" lb = Ok r →
  row_data (ref_row r) !! "ip_port_mappings" = Some (VMap m) →
  txn w = [] →
  ∃ w',
    addMappingEntry IPNetwork_version lb backend_ip port_name src_ip w
    = (Ok (), w')
    ∧ txn w' = [MutSetKey "Load_Balancer" (uuid (ref_row r)) "ip_port_mappings"
                  (bracket_if_v6 v backend_ip)
                  (port_name +:+ ":" +:+ bracket_if_v6 v src_ip)]
    ∧ LOG w' = LOG w
    ∧ read_column (idl_tables (committed w')) "Load_Balancer" lb
        "ip_port_mappings"
      = Ok (VMap (<[ bracket_if_v6 v backend_ip
                     := port_name +:+ ":" +:+ bracket_if_v6 v src_ip ]> m)).
Proof.
  intros Hparse Hlook Hmap Hfresh.
  set (self := mkAdd lb (bracket_if_v6 v backend_ip) port_name
                 (bracket_if_v6 v src_ip)).
  assert (addMappingEntry IPNetwork_version lb backend_ip port_name
            src_ip w = AddBackendToIPPortMapping_run_idl self w) as ->.
  { unfold addMappingEntry, lb_add_ip_port_mapping,
      AddBackendToIPPortMapping_init, bind, lift.
    rewrite Hparse. unfold self, bracket_if_v6.
    destruct (bool_decide (v = IP_VERSION_6)); reflexivity. }
  rewrite (add_run_idl_found self w r m Hlook Hmap), Hfresh.
  eexists. split; [reflexivity|]. split; [reflexivity|]. split; [reflexivity|].
  destruct (read_after_mutations "Load_Balancer" lb "ip_port_mappings"
              [MutDelKey "Load_Balancer" (uuid (ref_row r)) "ip_port_mappings"
                 (bracket_if_v6 v backend_ip);
               MutSetKey "Load_Balancer" (uuid (ref_row r)) "ip_port_mappings"
                 (bracket_if_v6 v backend_ip)
                 (port_name +:+ ":" +:+ bracket_if_v6 v src_ip)]
              (idl_tables w) r (VMap m) Hlook Hmap)
    as (r' & Hlook' & _ & Hdata); [discriminate|by repeat constructor|].
  cbn [foldl mutate_value] in Hdata. rewrite insert_delete_eq in Hdata.
  exact (read_column_found _ _ _ _ _ _ Hlook' Hdata).
Qed.

Lemma add_backend_brackets_by_backend_family_witness :
  ∃ w', addMappingEntry example_IPNetwork_version
          "lb-1" "2001:db8::1" "port-a" "2001:db8::2" ex_world = (Ok (), w')
        ∧ read_column (idl_tables (committed w')) "Load_Balancer" "lb-1"
            "ip_port_mappings"
          = Ok (VMap (<[ "[2001:db8::1]" := "port-a:[2001:db8::2]" ]> ∅)).
Proof.
  destruct (add_backend_brackets_by_backend_family example_IPNetwork_version
              "lb-1" "2001:db8::1" "port-a" "2001:db8::2" 6
              (mkRef "Load_Balancer" ex_lb_row) ∅ ex_world
              eq_refl eq_refl eq_refl eq_refl)
    as (w' & Hrun & _ & _ & Hread).
  exists w'. split; [exact Hrun|exact Hread].
Defined.

(** C1, as stated, fails: with an IPv4 backend address and an IPv6 source
    address the stored value keeps the source address without brackets,
    whereas normalising the source address by its own family would
    bracket it. *)
Lemma add_backend_source_not_normalized :
  example_IPNetwork_version "10.0.0.1" = Ok 4
  ∧ example_IPNetwork_version "2001:db8::2" = Ok 6
  ∧ read_column
      (idl_tables
         (committed
            (addMappingEntry example_IPNetwork_version
               "lb-1" "10.0.0.1" "port-a" "2001:db8::2" ex_world).2))
      "Load_Balancer" "lb-1" "ip_port_mappings"
    = Ok (VMap {[ "10.0.0.1" := "port-a:2001:db8::2" ]})
  ∧ "port-a" +:+ ":" +:+ normalized example_IPNetwork_version "2001:db8::2"
    = "port-a:[2001:db8::2]"
  ∧ read_column
      (idl_tables
         (committed
            (addMappingEntry example_IPNetwork_version
               "lb-1" "10.0.0.1" "port-a" "2001:db8::2" ex_world).2))
      "Load_Balancer" "lb-1" "ip_port_mappings"
    ≠ Ok (VMap {[ normalized example_IPNetwork_version "10.0.0.1"
                  := "port-a" +:+ ":"
                     +:+ normalized example_IPNetwork_version "2001:db8::2" ]}).
Proof.
  split; [reflexivity|]. split; [reflexivity|].
  split; [vm_compute; reflexivity|]. split; [reflexivity|].
  intros Heq.
  apply (f_equal (λ x, match x with
                       | Ok (VMap m) => m !! "10.0.0.1"
                       | _ => None
                       end)) in Heq.
  vm_compute in Heq. discriminate Heq.
Qed.

Example add_backend_ipv4_source_bracketed :
  (addMappingEntry example_IPNetwork_version
     "lb-1" "2001:db8::1" "port-a" "10.0.0.2" ex_world).2
  = mkWorld ex_tables
      [MutSetKey "Load_Balancer" "lb-1" "ip_port_mappings"
         "[2001:db8::1]" "port-a:[10.0.0.2]"] [].
Proof. vm_compute. reflexivity. Qed.

Example add_backend_ipv4_round_trip :
  read_column
    (idl_tables
       (committed
          (addMappingEntry example_IPNetwork_version
             "lb-1" "10.0.0.1" "port-a" "10.0.0.2" ex_world).2))
    "Load_Balancer" "lb-1" "ip_port_mappings"
  = Ok (VMap {[ "10.0.0.1" := "port-a:10.0.0.2" ]}).
Proof. vm_compute. reflexivity. Qed.

(** ** OvnNbTransaction.pre_commit *)

Lemma count_increments_app (mus mus' : list mutation) :
  count_increments (mus ++ mus')
  = (count_increments mus + count_increments mus')%nat.
Proof.
  unfold count_increments. by rewrite List.filter_app, length_app.
Qed.

Lemma no_increment_pending (mus : list mutation) :
  count_increments mus = 0%nat → existsb is_increment mus = false.
Proof.
  unfold count_increments.
  induction mus as [|mu mus IH]; [reflexivity|].
  cbn. destruct (is_increment mu); [discriminate|exact IH].
Qed.

Lemma read_nb_cfg_after_increment (ts : Tables) (g : Row) (n : Z) :
  nb_global ts = Ok g →
  row_data g !! "nb_cfg" = Some (VInt n) →
  read_nb_cfg (apply_mutation ts (MutIncrement "NB_Global" (uuid g) "nb_cfg"))
  = Ok (VInt (n + 1)).
Proof.
  unfold read_nb_cfg, nb_global, getitem, apply_mutation. cbn.
  destruct (ts !! "NB_Global") as [t|] eqn:Ht; [|discriminate]. cbn.
  destruct (rows t) as [|g0 rest] eqn:Hrows; [discriminate|].
  cbn. intros [= ->] Hcfg.
  rewrite lookup_alter_eq, Ht. cbn. rewrite Hrows. cbn.
  unfold getattr, mutate_row. cbn.
  rewrite bool_decide_eq_true_2 by reflexivity. cbn.
  by rewrite lookup_alter_eq, Hcfg.
Qed.

Lemma nb_global_after_mutation (ts : Tables) (g : Row) (n : Z)
    (mu : mutation) :
  nb_global ts = Ok g →
  row_data g !! "nb_cfg" = Some (VInt n) →
  is_increment mu = false →
  ∃ g', nb_global (apply_mutation ts mu) = Ok g'
        ∧ uuid g' = uuid g
        ∧ row_data g' !! "nb_cfg" = Some (VInt n).
Proof.
  intros Hg Hcfg Hmu.
  unfold nb_global, getitem in Hg |- *.
  destruct (ts !! "NB_Global") as [t|] eqn:Ht; [|discriminate]. cbn in Hg.
  destruct (rows t) as [|g0 rest] eqn:Hrows; [discriminate|].
  injection Hg as ->.
  unfold apply_mutation.
  destruct (mutation_target mu) as [[t' u] c] eqn:Htarget.
  destruct (decide (t' = "NB_Global")) as [->|Hne].
  - rewrite lookup_alter_eq, Ht. cbn. rewrite Hrows. cbn.
    eexists. split; [reflexivity|]. split; [apply mutate_row_uuid|].
    unfold mutate_row. rewrite Htarget.
    destruct (bool_decide (uuid g = u)); [|exact Hcfg]. cbn.
    destruct (decide (c = "nb_cfg")) as [->|Hc].
    + rewrite lookup_alter_eq, Hcfg. by destruct mu.
    + by rewrite lookup_alter_ne.
  - rewrite lookup_alter_ne, Ht by done. cbn. rewrite Hrows. cbn. eauto.
Qed.

Lemma nb_global_after_updates (mus : list mutation) :
  ∀ (ts : Tables) (g : Row) (n : Z),
    nb_global ts = Ok g →
    row_data g !! "nb_cfg" = Some (VInt n) →
    Forall (λ mu, is_increment mu = false) mus →
    ∃ g', nb_global (apply_mutations mus ts) = Ok g'
          ∧ uuid g' = uuid g
          ∧ row_data g' !! "nb_cfg" = Some (VInt n).
Proof.
  induction mus as [|mu mus IH]; intros ts g n Hg Hcfg Hmus.
  - exists g. by repeat split.
  - apply Forall_cons in Hmus as [Hmu Hmus].
    destruct (nb_global_after_mutation ts g n mu Hg Hcfg Hmu)
      as (g1 & Hg1 & Hu1 & Hcfg1).
    destruct (IH (apply_mutation ts mu) g1 n Hg1 Hcfg1 Hmus)
      as (g' & Hg' & Hu' & Hcfg').
    exists g'. split; [exact Hg'|]. split; [congruence|exact Hcfg'].
Qed.

Lemma removals_are_updates (mus : list mutation) :
  Forall (λ mu, is_increment mu = false) (omap removal_of mus).
Proof.
  induction mus as [|[] mus IH]; cbn; try constructor; done.
Qed.

Lemma insertions_are_updates (mus : list mutation) :
  Forall (λ mu, is_increment mu = false) (omap insertion_of mus).
Proof.
  induction mus as [|[] mus IH]; cbn; try constructor; done.
Qed.

Lemma sent_after_increment (t u c : string) (rest : list mutation) :
  sent_mutations (MutIncrement t u c :: rest)
  = if any_updates rest
    then omap removal_of rest ++ omap insertion_of rest
         ++ MutIncrement t u c :: List.filter is_increment rest
    else [].
Proof. reflexivity. Qed.

Lemma no_increment_filter (mus : list mutation) :
  count_increments mus = 0%nat → List.filter is_increment mus = [].
Proof. unfold count_increments. apply nil_length_inv. Qed.

(** C5: without the flag [pre_commit] does nothing at all.  With the flag,
    an NB_Global row present and no increment pending yet, it queues
    exactly one increment of that row's [nb_cfg] on the pending
    transaction and touches neither the mirror nor the log.  The
    increment therefore shares the fate of the rest of the transaction:
    aborted, the mirror is as before; committed together with the
    updates the commands queue after it, the counter reads one more; and
    when the commands queue no update nothing is sent, so the counter
    stays. *)
Theorem pre_commit_bumps_once (self : OvnNbTransaction) (w : World) :
  (bump_nb_cfg self = false → pre_commit self w = (Ok (), w))
  ∧ (bump_nb_cfg self = true →
     ∀ g, nb_global (idl_tables w) = Ok g →
          count_increments (txn w) = 0%nat →
          ∃ w', pre_commit self w = (Ok (), w')
                ∧ idl_tables w' = idl_tables w
                ∧ LOG w' = LOG w
                ∧ txn w' = txn w ++ [MutIncrement "NB_Global" (uuid g) "nb_cfg"]
                ∧ count_increments (txn w') = 1%nat
                ∧ idl_tables (aborted w') = idl_tables w
                ∧ (∀ n rest,
                     txn w = [] →
                     row_data g !! "nb_cfg" = Some (VInt n) →
                     count_increments rest = 0%nat →
                     read_nb_cfg
                       (idl_tables
                          (committed (mkWorld (idl_tables w')
                                        (txn w' ++ rest) (LOG w'))))
                     = Ok (VInt (if any_updates rest then n + 1 else n)))).
Proof.
  unfold pre_commit. split; intros Hflag; rewrite Hflag; [reflexivity|].
  intros g Hg Hnone. cbn [negb].
  unfold bind, api_nb_global, Row_increment. rewrite Hg.
  rewrite (no_increment_pending _ Hnone). unfold queue.
  eexists. split; [reflexivity|]. cbn [idl_tables txn LOG].
  split; [reflexivity|]. split; [reflexivity|]. split; [reflexivity|].
  split; [rewrite count_increments_app, Hnone; reflexivity|].
  split; [reflexivity|].
  intros n rest Hfresh Hcfg Hrest.
  unfold committed. cbn [idl_tables txn ref_table ref_row].
  rewrite Hfresh. cbn [app].
  rewrite sent_after_increment, (no_increment_filter _ Hrest).
  destruct (any_updates rest).
  - unfold apply_mutations. rewrite app_assoc, foldl_app. cbn [foldl].
    destruct (nb_global_after_updates
                (omap removal_of rest ++ omap insertion_of rest)
                (idl_tables w) g n Hg Hcfg) as (g' & Hg' & Hu & Hcfg').
    { apply Forall_app. split;
        [apply removals_are_updates|apply insertions_are_updates]. }
    unfold apply_mutations in Hg'. rewrite <- Hu.
    by apply read_nb_cfg_after_increment.
  - cbn. unfold read_nb_cfg. rewrite Hg. cbn. unfold getattr. by rewrite Hcfg.
Qed.

Lemma pre_commit_bumps_once_witness :
  pre_commit (create_transaction None None None) ex_world = (Ok (), ex_world)
  ∧ ∃ w', pre_commit (create_transaction None None (Some true)) ex_world
          = (Ok (), w')
          ∧ txn w' = [MutIncrement "NB_Global" "nbg" "nb_cfg"]
          ∧ read_nb_cfg
              (idl_tables
                 (committed
                    (mkWorld (idl_tables w')
                       (txn w' ++ [MutSetKey "Load_Balancer" "lb-1"
                                     "ip_port_mappings" "10.0.0.1"
                                     "port-a:10.0.0.2"])
                       (LOG w'))))
            = Ok (VInt 8)
          ∧ read_nb_cfg
              (idl_tables
                 (committed (mkWorld (idl_tables w') (txn w' ++ []) (LOG w'))))
            = Ok (VInt 7).
Proof.
  split.
  - exact (proj1 (pre_commit_bumps_once (create_transaction None None None)
                    ex_world) eq_refl).
  - destruct (proj2 (pre_commit_bumps_once
                       (create_transaction None None (Some true)) ex_world)
                eq_refl ex_nb_global_row eq_refl eq_refl)
      as (w' & Hrun & _ & _ & Hq & _ & _ & Hread).
    exists w'. split; [exact Hrun|]. split; [exact Hq|]. split.
    + exact (Hread 7 [MutSetKey "Load_Balancer" "lb-1" "ip_port_mappings"
                        "10.0.0.1" "port-a:10.0.0.2"]
               eq_refl eq_refl eq_refl).
    + exact (Hread 7 [] eq_refl eq_refl eq_refl).
Defined.

(** In the reference transaction the increment and the commands' effects
    become visible together or not at all. *)
Example pre_commit_shares_the_commit :
  let t := create_transaction (Some true) None (Some true) in
  let accepted :=
    (super_transaction verdict_accept t
       (ex_body example_IPNetwork_version) ex_world).2 in
  let refused :=
    (super_transaction verdict_conflict t
       (ex_body example_IPNetwork_version) ex_world).2 in
  read_nb_cfg (idl_tables accepted) = Ok (VInt 8)
  ∧ read_column (idl_tables accepted) "Load_Balancer" "lb-1" "ip_port_mappings"
    = Ok (VMap {[ "10.0.0.1" := "port-a:10.0.0.2" ]})
  ∧ idl_tables refused = ex_tables.
Proof. repeat split; vm_compute; reflexivity. Qed.

(** ** OvsdbNbOvnIdl.transaction *)



Example transaction_other_errors_propagate :
  transaction (raise (Exn RuntimeError "OVSDB transaction returned ERROR")) ex_world
  = (Raise (Exn RuntimeError "OVSDB transaction returned ERROR"), ex_world)
  ∧ transaction (raise (Exn KeyboardInterrupt "")) ex_world
    = (Raise (Exn KeyboardInterrupt ""), ex_world).
Proof. split; reflexivity. Qed.

(** ** Backend.check_for_row_by_value_and_retry *)

Section RetryFacts.

Variable mirror : nat → Tables.
Variable cost : nat → Z.
Variables table column match_ : string.

Lemma check_not_found (n : nat) :
  never_visible mirror table column match_ →
  check_for_row_by_value (mirror n) table column match_ = Raise (not_found table column match_).
Proof.
  intros Hnever. destruct (Hnever n) as (e & Hrow & Hcls).
  unfold check_for_row_by_value. by rewrite Hrow, Hcls.
Qed.

Lemma retrying_not_found (fuel n : nat) (now : Z) :
  never_visible mirror table column match_ →
  retrying mirror cost table column match_ (S fuel) n now
  = if stop_after_delay (10 * second) (now + cost n)
    then Some (mkOutcome (Raise (not_found table column match_)) n (now + cost n))
    else retrying mirror cost table column match_ fuel (S n)
           (now + cost n + wait_exponential n).
Proof.
  intros Hnever. cbn [retrying]. rewrite (check_not_found n Hnever).
  reflexivity.
Qed.

Lemma retrying_more_fuel (fuel : nat) :
  ∀ (n : nat) (now : Z) (out : retry_outcome) (fuel' : nat),
    retrying mirror cost table column match_ fuel n now = Some out →
    (fuel ≤ fuel')%nat →
    retrying mirror cost table column match_ fuel' n now = Some out.
Proof.
  induction fuel as [|fuel IH]; intros n now out fuel' Hrun Hle;
    [discriminate|].
  destruct fuel' as [|fuel']; [lia|].
  cbn [retrying] in Hrun |- *.
  destruct (check_for_row_by_value (mirror n) table column match_)
    as [[]|e]; [exact Hrun|].
  destruct (negb (isinstance e RuntimeError)); [exact Hrun|].
  destruct (stop_after_delay (10 * second) (now + cost n)); [exact Hrun|].
  apply IH; [exact Hrun|lia].
Qed.

End RetryFacts.

Lemma wait_exponential_first :
  wait_exponential 1 = second ∧ wait_exponential 2 = 2 * second
  ∧ wait_exponential 3 = 4 * second ∧ wait_exponential 4 = 8 * second.
Proof. repeat split. Qed.

Lemma retrying_until_delay (mirror : nat → Tables) (cost : nat → Z)
    (table column match_ : string) (d : nat) :
  ∀ (fuel n : nat) (now : Z),
    (d < fuel)%nat →
    never_visible mirror table column match_ →
    (∀ j, (j < d)%nat →
       attempt_start cost n now j + cost (n + j)%nat < 10 * second) →
    10 * second ≤ attempt_start cost n now d + cost (n + d)%nat →
    retrying mirror cost table column match_ fuel n now
    = Some (mkOutcome (Raise (not_found table column match_)) (n + d)
              (attempt_start cost n now d + cost (n + d)%nat)).
Proof.
  induction d as [|d IH]; intros fuel n now Hfuel Hnever Hbefore Hlate;
    (destruct fuel as [|fuel]; [lia|]);
    rewrite retrying_not_found by exact Hnever;
    unfold stop_after_delay; cbn [attempt_start] in Hlate |- *.
  - rewrite Nat.add_0_r in *. by rewrite bool_decide_eq_true_2.
  - pose proof (Hbefore 0%nat ltac:(lia)) as Hfirst.
    cbn [attempt_start] in Hfirst. rewrite Nat.add_0_r in Hfirst.
    rewrite bool_decide_eq_false_2 by lia.
    replace (n + S d)%nat with (S n + d)%nat in * by lia.
    apply IH; [lia|exact Hnever| |exact Hlate].
    intros j Hj. pose proof (Hbefore (S j) ltac:(lia)) as Hj'.
    cbn [attempt_start] in Hj'.
    by replace (n + S j)%nat with (S n + j)%nat in Hj' by lia.
Qed.

(** The first index at which a sequence reaches a bound it reaches at
    [N]. *)
Lemma first_reaching (f : nat → Z) (bound : Z) (N : nat) :
  bound ≤ f N →
  ∃ d, (d ≤ N)%nat ∧ (∀ j, (j < d)%nat → f j < bound) ∧ bound ≤ f d.
Proof.
  intros HN.
  assert (∀ k, (∃ d, (d < k)%nat ∧ (∀ j, (j < d)%nat → f j < bound)
                     ∧ bound ≤ f d)
               ∨ (∀ j, (j < k)%nat → f j < bound)) as Hscan.
  { induction k as [|k [(d & Hd & Hmin & Hlate)|Hnone]].
    - right. intros j Hj. lia.
    - left. exists d. split; [lia|]. by split.
    - destruct (decide (bound ≤ f k)) as [Hk|Hk].
      + left. exists k. split; [lia|]. by split.
      + right. intros j Hj.
        destruct (decide (j = k)) as [->|Hne]; [lia|apply Hnone; lia]. }
  destruct (Hscan (S N)) as [(d & Hd & Hmin & Hlate)|Hnone].
  - exists d. split; [lia|]. by split.
  - specialize (Hnone N ltac:(lia)). lia.
Qed.

Lemma attempt_start_first (cost : nat → Z) (d : nat) :
  (d < 5)%nat →
  attempt_start cost 1 0 d
  = lookups_time cost 1 d + (2 ^ Z.of_nat d - 1) * second.
Proof.
  intros Hd. destruct wait_exponential_first as (W1 & W2 & W3 & W4).
  do 5 (destruct d as [|d];
        [cbn [attempt_start lookups_time]; rewrite ?W1, ?W2, ?W3, ?W4;
         unfold second; cbn; lia|]).
  lia.
Qed.

Lemma lookups_time_nonneg (cost : nat → Z) (d : nat) :
  (∀ n, 0 ≤ cost n) → ∀ n, 0 ≤ lookups_time cost n d.
Proof.
  intros Hcost. induction d as [|d IH]; intros n; cbn; [lia|].
  specialize (IH (S n)). specialize (Hcost n). lia.
Qed.

(** C3, as the code has it: while no matching row is visible, every
    attempt raises the RuntimeError and tenacity re-raises the last one to
    the caller.  The call gives up at the first attempt that ends ten
    seconds or more after the call began, and at no other: all attempts
    before it ended earlier, and it is the fifth at the latest.  Between
    attempts the exponential waits of 1, 2, 4 and 8 seconds are slept in
    full, so the clock at return is the time of the lookups plus those
    waits, ten seconds at least.  Any fuel beyond the number of attempts
    gives this result. *)
Theorem retry_gives_up_after_delay (mirror : nat → Tables) (cost : nat → Z)
    (table column match_ : string) :
  (∀ n, 0 ≤ cost n) →
  never_visible mirror table column match_ →
  ∃ d out,
    (d < 5)%nat
    ∧ (∀ j, (j < d)%nat →
         attempt_start cost 1 0 j + cost (1 + j)%nat < 10 * second)
    ∧ 10 * second ≤ attempt_start cost 1 0 d + cost (1 + d)%nat
    ∧ attempt_start cost 1 0 d
      = lookups_time cost 1 d + (2 ^ Z.of_nat d - 1) * second
    ∧ out = mkOutcome
              (Raise (Exn RuntimeError (match_ +:+ " does not exist in "
                                        +:+ column +:+ " of " +:+ table)))
              (1 + d) (attempt_start cost 1 0 d + cost (1 + d)%nat)
    ∧ (∀ fuel, (d < fuel)%nat →
         check_for_row_by_value_and_retry mirror cost table column match_ fuel
         = Some out)
    ∧ (1 ≤ attempts out ≤ 5)%nat
    ∧ 10 * second ≤ elapsed out
    ∧ (2 ^ (Z.of_nat (attempts out) - 1) - 1) * second ≤ elapsed out.
Proof.
  intros Hcost Hnever.
  destruct (first_reaching
              (λ j, attempt_start cost 1 0 j + cost (1 + j)%nat)
              (10 * second) 4) as (d & Hd & Hbefore & Hlate).
  { rewrite attempt_start_first by lia.
    pose proof (lookups_time_nonneg cost 4 Hcost 1%nat).
    pose proof (Hcost (1 + 4)%nat).
    change (2 ^ Z.of_nat 4) with 16. unfold second. lia. }
  cbn beta in Hbefore, Hlate.
  exists d. eexists.
  split; [lia|]. split; [exact Hbefore|]. split; [exact Hlate|].
  split; [apply attempt_start_first; lia|]. split; [reflexivity|].
  split; [|cbn [attempts elapsed]; split; [lia|split; [exact Hlate|]]].
  - intros fuel Hfuel. unfold check_for_row_by_value_and_retry.
    exact (retrying_until_delay mirror cost table column match_ d fuel 1%nat 0
             Hfuel Hnever Hbefore Hlate).
  - rewrite attempt_start_first by lia.
    pose proof (lookups_time_nonneg cost d Hcost 1%nat).
    pose proof (Hcost (1 + d)%nat).
    replace (Z.of_nat (1 + d) - 1) with (Z.of_nat d) by lia.
    unfold second in *. lia.
Qed.

Lemma retry_gives_up_after_delay_witness :
  ∃ out,
    check_for_row_by_value_and_retry (λ _, ex_tables) (λ _, 250000000)
      "Logical_Switch" "name" "net-z" 8 = Some out
    ∧ outcome out
      = Raise (Exn RuntimeError "net-z does not exist in name of Logical_Switch").
Proof.
  destruct (retry_gives_up_after_delay (λ _, ex_tables) (λ _, 250000000)
              "Logical_Switch" "name" "net-z")
    as (d & out & Hd & _ & _ & _ & Hout & Hrun & _).
  - intros n. lia.
  - intros n. eexists. split; vm_compute; reflexivity.
  - exists out. split; [apply Hrun; lia|by rewrite Hout].
Defined.

(** C3, as stated, fails on the ten-second bound: with lookups that take
    no time the row is looked up a fifth time fifteen seconds after the
    call began, and the call returns then. *)
Lemma retry_exceeds_ten_seconds :
  check_for_row_by_value_and_retry (λ _, ex_tables) (λ _, 0)
    "Logical_Switch" "name" "net-z" 5
  = Some (mkOutcome
            (Raise (Exn RuntimeError
                      "net-z does not exist in name of Logical_Switch"))
            5 (15 * second))
  ∧ ¬ (15 * second ≤ 10 * second).
Proof.
  split; [vm_compute; reflexivity|]. unfold second. lia.
Qed.

Example retry_found_at_once :
  check_for_row_by_value_and_retry (λ _, ex_tables) (λ _, 1000)
    "Logical_Switch" "name" "net-b" 1
  = Some (mkOutcome (Ok ()) 1 1000).
Proof. vm_compute. reflexivity. Qed.

Example retry_found_on_third_attempt :
  check_for_row_by_value_and_retry
    (λ n, if bool_decide (n < 3)%nat then ex_tables_no_switch else ex_tables)
    (λ _, 0) "Logical_Switch" "name" "net-b" 5
  = Some (mkOutcome (Ok ()) 3 (3 * second)).
Proof. vm_compute. reflexivity. Qed.

Example retry_other_errors_not_retried :
  check_for_row_by_value_and_retry (λ _, ex_tables) (λ _, 1000)
    "Port_Group" "name" "pg" 5
  = Some (mkOutcome (Raise (Exn KeyError "Port_Group")) 1 1000).
Proof. vm_compute. reflexivity. Qed.

(** ** OvnSbIdlForLb.stop *)

(** C8, as the code has it: [stop] always returns.  It stops the
    connection only when one is set and then forgets it, so a second call
    never stops a connection again; every call, also one made before
    [start], shuts the notification handler down and closes the IDL
    session.  When those two operations are idempotent, two calls in a
    row leave the object exactly as one call does. *)
Theorem stop_twice_as_once {Conn Handler Session : Type}
    (Connection_stop : Conn → Z → bool)
    (Handler_shutdown : Handler → Handler) (Idl_close : Session → Session)
    (timeout : Z) (self : @OvnSbIdlForLb Conn Handler Session) :
  (∀ h, Handler_shutdown (Handler_shutdown h) = Handler_shutdown h) →
  (∀ s, Idl_close (Idl_close s) = Idl_close s) →
  let once := stop Connection_stop Handler_shutdown Idl_close timeout self in
  let twice := stop Connection_stop Handler_shutdown Idl_close timeout once.2 in
  twice.2 = once.2
  ∧ conn once.2 = None
  ∧ twice.1 = [CallNotifyShutdown; CallIdlClose]
  ∧ (conn self = None →
     once = ([CallNotifyShutdown; CallIdlClose],
             mkSb None (Handler_shutdown (notify_handler self))
                  (Idl_close (session self)))).
Proof.
  intros Hshutdown Hclose. unfold stop.
  destruct self as [[c|] h s]; cbn; rewrite ?Hshutdown, ?Hclose;
    repeat split; discriminate.
Qed.

Lemma stop_twice_as_once_witness :
  (ex_stop (ex_stop (start (λ _, ()) 180 ex_fresh_sb)).2).2
  = (ex_stop (start (λ _, ()) 180 ex_fresh_sb)).2
  ∧ (ex_stop (start (λ _, ()) 180 ex_fresh_sb)).1
    = [CallConnStop 180; CallNotifyShutdown; CallIdlClose]
  ∧ (ex_stop (ex_stop (start (λ _, ()) 180 ex_fresh_sb)).2).1
    = [CallNotifyShutdown; CallIdlClose].
Proof.
  destruct (stop_twice_as_once ex_conn_stop ex_shutdown ex_close 180
              (start (λ _, ()) 180 ex_fresh_sb)
              (λ _, eq_refl) (λ _, eq_refl))
    as (Hsame & _ & Hcalls & _).
  split; [exact Hsame|]. split; [reflexivity|exact Hcalls].
Defined.

(** C8, as stated, fails: stopping an object that was never started is
    not a no-op, since the running handler is shut down and the open
    session is closed; and of two calls in a row each one closes the IDL
    session. *)
Lemma stop_before_start_not_noop :
  conn ex_fresh_sb = None
  ∧ ex_stop ex_fresh_sb
    = ([CallNotifyShutdown; CallIdlClose], mkSb None false false)
  ∧ (ex_stop ex_fresh_sb).2 ≠ ex_fresh_sb
  ∧ (ex_stop ex_fresh_sb).1 ++ (ex_stop (ex_stop ex_fresh_sb).2).1
    = [CallNotifyShutdown; CallIdlClose; CallNotifyShutdown; CallIdlClose].
Proof.
  repeat split. discriminate.
Qed.

(** * Further properties of the module *)

(** ** FindLbInTableCommand and GetLrsCommand: errors and composition *)

Lemma find_lb_comprehension_missing (lb : string) (pre post : list Row)
    (r : Row) :
  Forall has_load_balancer_refs pre →
  row_data r !! "load_balancer" = None →
  find_lb_comprehension lb (pre ++ r :: post)
  = Raise (Exn AttributeError "load_balancer").
Proof.
  intros Hpre Hr. induction Hpre as [|item rest [l Hl] _ IH].
  - cbn. unfold getattr. by rewrite Hr.
  - cbn. unfold getattr. rewrite Hl. cbn. by rewrite IH.
Qed.

(** X1: [FindLbInTableCommand.run_idl] gives no partial result: for a
    table that is not registered it raises KeyError with the table name,
    and as soon as one row of the table lacks the [load_balancer] column
    it raises AttributeError, whatever the rows before and after it
    reference. *)
Theorem find_lb_in_table_errors (api_tables : Tables) (table lb : string) :
  (api_tables !! table = None →
   FindLbInTableCommand_run_idl api_tables lb table
   = Raise (Exn KeyError table))
  ∧ (∀ t pre r post,
       api_tables !! table = Some t →
       rows t = pre ++ r :: post →
       Forall has_load_balancer_refs pre →
       row_data r !! "load_balancer" = None →
       FindLbInTableCommand_run_idl api_tables lb table
       = Raise (Exn AttributeError "load_balancer")).
Proof.
  unfold FindLbInTableCommand_run_idl, getitem. split.
  - by intros ->.
  - intros t pre r post Ht Hrows Hpre Hr. rewrite Ht. cbn. rewrite Hrows.
    by apply find_lb_comprehension_missing.
Qed.

Lemma find_lb_in_table_errors_witness :
  FindLbInTableCommand_run_idl ex_tables "lb-1" "Port_Group"
  = Raise (Exn KeyError "Port_Group")
  ∧ FindLbInTableCommand_run_idl ex_tables "lb-1" "NB_Global"
    = Raise (Exn AttributeError "load_balancer").
Proof.
  split.
  - exact (proj1 (find_lb_in_table_errors ex_tables "Port_Group" "lb-1")
             eq_refl).
  - exact (proj2 (find_lb_in_table_errors ex_tables "NB_Global" "lb-1")
             (mkTable {[ "nb_cfg" ]} [ex_nb_global_row]) [] ex_nb_global_row []
             eq_refl eq_refl (Forall_nil_2 _) eq_refl).
Defined.

Lemma filter_sublist {A} (p : A → bool) (l : list A) :
  List.filter p l `sublist_of` l.
Proof.
  induction l as [|x l IH]; [constructor|].
  cbn. destruct (p x); by constructor.
Qed.

(** X2: on a registered Logical_Router table, [GetLrsCommand.run_idl]
    returns one view per row, in table order, and what
    [FindLbInTableCommand] finds in that table is a sublist of it. *)
Theorem get_lrs_covers_find_lb (api_tables : Tables) (t : Table) (lb : string) :
  api_tables !! "Logical_Router" = Some t →
  Forall has_load_balancer_refs (rows t) →
  ∃ all found,
    GetLrsCommand_run_idl api_tables = Ok all
    ∧ _row <$> all = rows t
    ∧ FindLbInTableCommand_run_idl api_tables lb "Logical_Router" = Ok found
    ∧ found `sublist_of` all.
Proof.
  intros Ht Hrefs.
  exists (mkRowView <$> rows t),
         (mkRowView <$> List.filter (references lb) (rows t)).
  unfold GetLrsCommand_run_idl, FindLbInTableCommand_run_idl, getitem.
  rewrite Ht. cbn. split; [reflexivity|]. split.
  - rewrite <- list_fmap_compose. apply list_fmap_id.
  - split; [by apply find_lb_comprehension_filter|].
    apply fmap_sublist, filter_sublist.
Qed.

Lemma ex_lr_rows_have_refs : Forall has_load_balancer_refs ex_lr_rows.
Proof.
  repeat constructor; eexists; reflexivity.
Defined.

Lemma get_lrs_covers_find_lb_witness :
  ∃ all found,
    GetLrsCommand_run_idl ex_tables_routers = Ok all
    ∧ _row <$> all = ex_lr_rows
    ∧ FindLbInTableCommand_run_idl ex_tables_routers "lb-1" "Logical_Router"
      = Ok found
    ∧ found `sublist_of` all.
Proof.
  exact (get_lrs_covers_find_lb ex_tables_routers
           (mkTable {[ "name"; "load_balancer" ]} ex_lr_rows) "lb-1"
           eq_refl ex_lr_rows_have_refs).
Defined.

Example get_lrs_unregistered :
  GetLrsCommand_run_idl ex_tables = Raise (Exn KeyError "Logical_Router").
Proof. reflexivity. Qed.

(** ** Backend.check_for_row_by_value_and_retry: the other outcomes *)

Lemma check_found (idl : Tables) (table column match_ : string) (r : Row) :
  row_by_value idl table column match_ = Ok r →
  check_for_row_by_value idl table column match_ = Ok ().
Proof. unfold check_for_row_by_value. by intros ->. Qed.

Lemma retrying_until_visible (mirror : nat → Tables) (cost : nat → Z)
    (table column match_ : string) (d : nat) :
  ∀ (fuel n : nat) (now : Z),
    (d < fuel)%nat →
    (∀ j, (j < d)%nat →
       not_visible_at mirror table column match_ (n + j)
       ∧ attempt_start cost n now j + cost (n + j)%nat < 10 * second) →
    (∃ r, row_by_value (mirror (n + d)%nat) table column match_ = Ok r) →
    retrying mirror cost table column match_ fuel n now
    = Some (mkOutcome (Ok ()) (n + d)
              (attempt_start cost n now d + cost (n + d)%nat)).
Proof.
  induction d as [|d IH]; intros fuel n now Hfuel Hbefore [r Hr];
    (destruct fuel as [|fuel]; [lia|]); cbn [retrying attempt_start].
  - rewrite Nat.add_0_r in *. by rewrite (check_found _ _ _ _ r Hr).
  - destruct (Hbefore 0%nat ltac:(lia)) as [(e & He & Hcls) Htime].
    rewrite Nat.add_0_r in He, Htime. cbn [attempt_start] in Htime.
    unfold check_for_row_by_value at 1. rewrite He, Hcls. cbn.
    unfold stop_after_delay. rewrite bool_decide_eq_false_2 by lia.
    replace (n + S d)%nat with (S n + d)%nat by lia.
    apply IH; [lia| |].
    + intros j Hj. destruct (Hbefore (S j) ltac:(lia)) as [Hnv Ht].
      replace (n + S j)%nat with (S n + j)%nat in Hnv, Ht by lia.
      split; [exact Hnv|exact Ht].
    + exists r. by replace (S n + d)%nat with (n + S d)%nat by lia.
Qed.

(** X3: the retried check succeeds as soon as the row shows up: when the
    lookups of attempts 1..k find nothing, each of them ending less than
    ten seconds after the call began, and the lookup of attempt k+1 finds
    the row, the call returns normally after exactly k+1 lookups, having
    slept the full exponential waits in between and nothing more. *)
Theorem retry_succeeds_when_row_appears (mirror : nat → Tables)
    (cost : nat → Z) (table column match_ : string) (k fuel : nat) :
  (k < fuel)%nat →
  (∀ j, (j < k)%nat →
     not_visible_at mirror table column match_ (1 + j)
     ∧ attempt_start cost 1 0 j + cost (1 + j)%nat < 10 * second) →
  (∃ r, row_by_value (mirror (1 + k)%nat) table column match_ = Ok r) →
  check_for_row_by_value_and_retry mirror cost table column match_ fuel
  = Some (mkOutcome (Ok ()) (1 + k)
            (attempt_start cost 1 0 k + cost (1 + k)%nat)).
Proof.
  intros Hfuel Hbefore Hfound. unfold check_for_row_by_value_and_retry.
  by apply retrying_until_visible.
Qed.

Lemma retry_succeeds_when_row_appears_witness :
  check_for_row_by_value_and_retry
    (λ n, if bool_decide (n < 3)%nat then ex_tables_no_switch else ex_tables)
    (λ _, 0) "Logical_Switch" "name" "net-b" 5
  = Some (mkOutcome (Ok ()) 3 (3 * second)).
Proof.
  apply (retry_succeeds_when_row_appears
           (λ n, if bool_decide (n < 3)%nat then ex_tables_no_switch
                 else ex_tables)
           (λ _, 0) "Logical_Switch" "name" "net-b" 2 5).
  - lia.
  - intros j Hj. assert (j = 0 ∨ j = 1)%nat as [-> | ->] by lia.
    + split; [eexists; split; vm_compute; reflexivity|vm_compute; reflexivity].
    + split; [eexists; split; vm_compute; reflexivity|vm_compute; reflexivity].
  - eexists. vm_compute. reflexivity.
Defined.

(** X4: only the not-found error is retried: when the first lookup fails
    for another reason, with an error that is no RuntimeError (KeyError
    for a table that is not registered, AttributeError for a column the
    rows lack), that error reaches the caller after this single lookup,
    with no sleep. *)
Theorem retry_other_errors_propagate (mirror : nat → Tables) (cost : nat → Z)
    (table column match_ : string) (e : exn) (fuel : nat) :
  (0 < fuel)%nat →
  row_by_value (mirror 1%nat) table column match_ = Raise e →
  isinstance e RuntimeError = false →
  check_for_row_by_value_and_retry mirror cost table column match_ fuel
  = Some (mkOutcome (Raise e) 1 (cost 1%nat)).
Proof.
  intros Hfuel Hrow Hcls. destruct fuel as [|fuel]; [lia|].
  unfold check_for_row_by_value_and_retry. cbn [retrying].
  unfold check_for_row_by_value. rewrite Hrow.
  assert (isinstance e RowNotFound = false) as ->.
  { destruct e as [[] msg]; vm_compute in Hcls |- *; congruence. }
  by rewrite Hcls.
Qed.

Lemma retry_other_errors_propagate_witness :
  check_for_row_by_value_and_retry (λ _, ex_tables) (λ _, 1000)
    "Port_Group" "name" "pg" 5
  = Some (mkOutcome (Raise (Exn KeyError "Port_Group")) 1 1000)
  ∧ check_for_row_by_value_and_retry (λ _, ex_tables) (λ _, 1000)
      "NB_Global" "name" "x" 5
    = Some (mkOutcome (Raise (Exn AttributeError "name")) 1 1000).
Proof.
  split.
  - apply (retry_other_errors_propagate (λ _, ex_tables) (λ _, 1000)
             "Port_Group" "name" "pg" (Exn KeyError "Port_Group") 5);
      [lia|reflexivity|reflexivity].
  - apply (retry_other_errors_propagate (λ _, ex_tables) (λ _, 1000)
             "NB_Global" "name" "x" (Exn AttributeError "name") 5);
      [lia|vm_compute; reflexivity|reflexivity].
Defined.

Lemma check_never_row_not_found (idl : Tables) (table column match_ : string)
    (e : exn) :
  check_for_row_by_value idl table column match_ = Raise e →
  isinstance e RowNotFound = false.
Proof.
  unfold check_for_row_by_value.
  destruct (row_by_value idl table column match_) as [r|e0]; [discriminate|].
  destruct (isinstance e0 RowNotFound) eqn:Hcls; intros [= <-];
    [reflexivity|exact Hcls].
Qed.

(** X5: the caller of the retried check never sees the library's
    RowNotFound: whatever the mirror shows and however long the lookups
    take, an error the call ends with is not an instance of it. *)
Theorem retry_never_raises_row_not_found (mirror : nat → Tables)
    (cost : nat → Z) (table column match_ : string) (fuel : nat)
    (out : retry_outcome) (e : exn) :
  check_for_row_by_value_and_retry mirror cost table column match_ fuel
  = Some out →
  outcome out = Raise e →
  isinstance e RowNotFound = false.
Proof.
  unfold check_for_row_by_value_and_retry.
  generalize 1%nat as n, 0 as now. revert out.
  induction fuel as [|fuel IH]; intros out n now Hrun Hout; [discriminate|].
  cbn [retrying] in Hrun.
  destruct (check_for_row_by_value (mirror n) table column match_)
    as [[]|e0] eqn:Hcheck.
  - injection Hrun as <-. discriminate.
  - pose proof (check_never_row_not_found _ _ _ _ _ Hcheck) as Hnot.
    destruct (negb (isinstance e0 RuntimeError)).
    + injection Hrun as <-. by injection Hout as <-.
    + destruct (stop_after_delay (10 * second) (now + cost n)).
      * injection Hrun as <-. by injection Hout as <-.
      * by eapply IH.
Qed.

Lemma retry_never_raises_row_not_found_witness :
  isinstance (Exn RuntimeError "net-z does not exist in name of Logical_Switch")
    RowNotFound = false.
Proof.
  apply (retry_never_raises_row_not_found (λ _, ex_tables) (λ _, 0)
           "Logical_Switch" "name" "net-z" 5
           (mkOutcome
              (Raise (Exn RuntimeError
                        "net-z does not exist in name of Logical_Switch"))
              5 (15 * second))).
  - vm_compute. reflexivity.
  - reflexivity.
Defined.

(** X6: the retried check always returns: whatever the mirror shows at
    each attempt, when no lookup takes negative time the call ends after
    at most five lookups; five units of fuel are enough and more change
    nothing. *)
Theorem retry_always_terminates (mirror : nat → Tables) (cost : nat → Z)
    (table column match_ : string) :
  (∀ n, 0 ≤ cost n) →
  ∃ out,
    (∀ fuel, (5 ≤ fuel)%nat →
       check_for_row_by_value_and_retry mirror cost table column match_ fuel
       = Some out)
    ∧ (1 ≤ attempts out ≤ 5)%nat.
Proof.
  intros Hcost.
  pose proof (Hcost 1%nat) as H1. pose proof (Hcost 2%nat) as H2.
  pose proof (Hcost 3%nat) as H3. pose proof (Hcost 4%nat) as H4.
  pose proof (Hcost 5%nat) as H5.
  destruct wait_exponential_first as (W1 & W2 & W3 & W4).
  assert (∃ out,
            check_for_row_by_value_and_retry mirror cost table column match_ 5
            = Some out ∧ (1 ≤ attempts out ≤ 5)%nat) as (out & Hrun & Hatt).
  { unfold check_for_row_by_value_and_retry. cbn [retrying].
    repeat
      (match goal with
       | |- context [check_for_row_by_value (mirror ?n) _ _ _] =>
           destruct (check_for_row_by_value (mirror n) table column match_)
             as [[]|?]
       end;
       [ eexists; split; [reflexivity|cbn; lia] | ];
       match goal with
       | |- context [negb (isinstance ?e RuntimeError)] =>
           destruct (negb (isinstance e RuntimeError))
       end;
       [ eexists; split; [reflexivity|cbn; lia] | ];
       unfold stop_after_delay at 1; case_bool_decide;
       [ eexists; split; [reflexivity|cbn; lia] | ]).
    rewrite ?W1, ?W2, ?W3, ?W4 in *. unfold second in *. lia. }
  exists out. split; [|exact Hatt].
  intros fuel Hfuel. unfold check_for_row_by_value_and_retry in *.
  by apply (retrying_more_fuel _ _ _ _ _ 5%nat).
Qed.

Lemma retry_always_terminates_witness :
  ∃ out,
    check_for_row_by_value_and_retry
      (λ n, if bool_decide (n < 3)%nat then ex_tables_no_switch else ex_tables)
      (λ n, Z.of_nat n) "Logical_Switch" "name" "net-b" 7 = Some out
    ∧ (attempts out ≤ 5)%nat.
Proof.
  destruct (retry_always_terminates
              (λ n, if bool_decide (n < 3)%nat then ex_tables_no_switch
                    else ex_tables)
              (λ n, Z.of_nat n) "Logical_Switch" "name" "net-b")
    as (out & Hrun & Hatt).
  - intros n. lia.
  - exists out. split; [apply Hrun; lia|lia].
Defined.

(** ** OvnNbTransaction.pre_commit: when NB_Global cannot be read *)

(** X7: with the flag set, [pre_commit] passes on the error of
    [nb_global] and queues nothing: KeyError when the NB_Global table is
    not registered, StopIteration when it is registered but empty. *)
Theorem pre_commit_propagates_nb_global_error (self : OvnNbTransaction)
    (w : World) :
  bump_nb_cfg self = true →
  (idl_tables w !! "NB_Global" = None →
   pre_commit self w = (Raise (Exn KeyError "NB_Global"), w))
  ∧ (∀ t, idl_tables w !! "NB_Global" = Some t → rows t = [] →
          pre_commit self w = (Raise (Exn StopIteration ""), w)).
Proof.
  intros Hflag. unfold pre_commit, bind, api_nb_global, nb_global, getitem.
  rewrite Hflag. cbn [negb]. split.
  - by intros ->.
  - intros t -> Hrows. cbn. by rewrite Hrows.
Qed.

Lemma pre_commit_propagates_nb_global_error_witness :
  pre_commit (create_transaction None None (Some true))
    (mkWorld ex_tables_no_global [] [])
  = (Raise (Exn StopIteration ""), mkWorld ex_tables_no_global [] [])
  ∧ pre_commit (create_transaction None None (Some true)) (mkWorld ∅ [] [])
    = (Raise (Exn KeyError "NB_Global"), mkWorld ∅ [] []).
Proof.
  split.
  - exact (proj2 (pre_commit_propagates_nb_global_error
                    (create_transaction None None (Some true))
                    (mkWorld ex_tables_no_global [] []) eq_refl)
             (mkTable {[ "nb_cfg" ]} []) eq_refl eq_refl).
  - exact (proj1 (pre_commit_propagates_nb_global_error
                    (create_transaction None None (Some true))
                    (mkWorld ∅ [] []) eq_refl) eq_refl).
Defined.

(** ** The two mapping commands together *)





(** X9: the add command is best-effort like the remove command: whatever
    [api.lookup] and [row.setkey] do, as long as they raise nothing
    outside [Exception], running it ends normally, and when one of them
    raises, one error record naming the key and the owner id is written
    on top of the state reached. *)
Theorem add_run_idl_catches {api : MirrorApi}
    (self : AddBackendToIPPortMapping) (w : World) :
  api_raises_only Exception api →
  ∃ w', AddBackendToIPPortMapping_run_idl self w = (Ok (), w')
        ∧ ∀ e w1,
            (lb ←← api_lookup "Load_Balancer" (add_lb self);
             Row_setkey lb "ip_port_mappings" (add_backend_ip self)
               (add_port_name self +:+ ":" +:+ add_src_ip self)) w
            = (Raise e, w1) →
            w' = mkWorld (idl_tables w1) (txn w1)
                   (LOG w1 ++ [mkLog LOG_ERROR
                                 ("Error adding backend "
                                  +:+ add_backend_ip self
                                  +:+ " to ip_port_mappings for LB uuid "
                                  +:+ add_lb self)]).
Proof.
  intros (Hlookup & Hsetkey & _).
  unfold AddBackendToIPPortMapping_run_idl, try_except.
  destruct ((lb ←← api_lookup "Load_Balancer" (add_lb self);
             Row_setkey lb "ip_port_mappings" (add_backend_ip self)
               (add_port_name self +:+ ":" +:+ add_src_ip self)) w)
    as [[[]|e] w1] eqn:Hbody.
  - eexists. split; [reflexivity|]. intros e w2 [=].
  - assert (isinstance e Exception = true) as ->.
    { unfold bind in Hbody.
      destruct (api_lookup "Load_Balancer" (add_lb self) w)
        as [[r|e0] w0] eqn:Hl.
      - by eapply Hsetkey.
      - injection Hbody as <- <-. by eapply Hlookup. }
    eexists. split; [reflexivity|]. by intros e' w2 [= <- <-].
Qed.

Lemma add_run_idl_catches_witness :
  ∃ w', AddBackendToIPPortMapping_run_idl (api := failing_api)
          (mkAdd "lb-1" "10.0.0.1" "port-a" "10.0.0.2") ex_world = (Ok (), w')
        ∧ w' = mkWorld ex_tables []
                 [mkLog LOG_ERROR
                    "Error adding backend 10.0.0.1 to ip_port_mappings for LB uuid lb-1"].
Proof.
  destruct (add_run_idl_catches (api := failing_api)
              (mkAdd "lb-1" "10.0.0.1" "port-a" "10.0.0.2") ex_world
              failing_api_raises_only_Exception) as (w' & Hrun & Hlog).
  exists w'. split; [exact Hrun|].
  apply (Hlog (Exn RuntimeError "mutation refused") ex_world).
  vm_compute. reflexivity.
Defined.

(** X10: the handlers of the two commands stop at [Exception]: an error
    outside it (a keyboard interrupt, say) raised by the lookup or by the
    mutation leaves [run_idl] as it is, and nothing is logged. *)
Theorem mapping_commands_let_base_exceptions_through {api : MirrorApi}
    (del : DelBackendFromIPPortMapping) (add : AddBackendToIPPortMapping)
    (w w1 : World) (e : exn) :
  isinstance e Exception = false →
  ((ovn_lb ←← api_lookup "Load_Balancer" (del_lb del);
    Row_delkey ovn_lb "ip_port_mappings" (del_backend_ip del)) w
   = (Raise e, w1) →
   DelBackendFromIPPortMapping_run_idl del w = (Raise e, w1))
  ∧ ((lb ←← api_lookup "Load_Balancer" (add_lb add);
      Row_setkey lb "ip_port_mappings" (add_backend_ip add)
        (add_port_name add +:+ ":" +:+ add_src_ip add)) w
     = (Raise e, w1) →
     AddBackendToIPPortMapping_run_idl add w = (Raise e, w1)).
Proof.
  intros Hcls.
  unfold DelBackendFromIPPortMapping_run_idl,
    AddBackendToIPPortMapping_run_idl, try_except.
  split; intros ->; by rewrite Hcls.
Qed.

Lemma mapping_commands_let_base_exceptions_through_witness :
  DelBackendFromIPPortMapping_run_idl (api := interrupted_api)
    (mkDel "lb-1" "10.0.0.1") ex_world
  = (Raise (Exn KeyboardInterrupt ""), ex_world)
  ∧ AddBackendToIPPortMapping_run_idl (api := interrupted_api)
      (mkAdd "lb-1" "10.0.0.1" "port-a" "10.0.0.2") ex_world
    = (Raise (Exn KeyboardInterrupt ""), ex_world).
Proof.
  destruct (mapping_commands_let_base_exceptions_through
              (api := interrupted_api) (mkDel "lb-1" "10.0.0.1")
              (mkAdd "lb-1" "10.0.0.1" "port-a" "10.0.0.2")
              ex_world ex_world (Exn KeyboardInterrupt "") eq_refl)
    as [Hdel Hadd].
  split; [apply Hdel|apply Hadd]; reflexivity.
Defined.

(** ** OvnSbIdlForLb: start followed by stop *)

(** X12: stopping a started handle calls [conn.stop] exactly once, with
    the configured timeout, writes the debug record exactly when that
    call reports a thread still alive, and in either case goes on to shut
    the handler down and close the session; the handle it leaves is the
    one stopping without a start would leave. *)
Theorem stop_after_start {Conn Handler Session : Type}
    (new_Connection : Z → Conn) (Connection_stop : Conn → Z → bool)
    (Handler_shutdown : Handler → Handler) (Idl_close : Session → Session)
    (timeout : Z) (self : @OvnSbIdlForLb Conn Handler Session) :
  let stop := stop Connection_stop Handler_shutdown Idl_close timeout in
  (stop (start new_Connection timeout self)).1
  = [CallConnStop timeout]
    ++ (if Connection_stop (new_Connection timeout) timeout then []
        else [CallLogDebug
                "Connection terminated to OvnSb but a thread is still alive"])
    ++ [CallNotifyShutdown; CallIdlClose]
  ∧ (stop (start new_Connection timeout self)).2 = (stop self).2
  ∧ conn (stop (start new_Connection timeout self)).2 = None.
Proof.
  unfold stop, start. destruct self as [[c|] h s]; cbn;
    destruct (Connection_stop (new_Connection timeout) timeout);
    repeat split.
Qed.

Example stop_thread_still_alive :
  stop (λ (_ : unit) _, false) ex_shutdown ex_close 180
    (start (λ _, ()) 180 ex_fresh_sb)
  = ([CallConnStop 180;
      CallLogDebug "Connection terminated to OvnSb but a thread is still alive";
      CallNotifyShutdown; CallIdlClose],
     mkSb None false false).
Proof. reflexivity. Qed.
